(** * Verification of the JSONL-to-BigQuery ingestion service (main.py)

    A shallow embedding of [main.py]: the record transformer
    [load_json_to_dataframe], the schema derivation and load step
    [create_or_append_table], the folder manager [create_folders], the
    relocation [move_blob_to_folder], the per-file driver
    [process_blob_with_error_handling] and the request handler
    [ingest_json_to_bigquery].

    Conventions.
    - A Python [str] is a [string] whose characters are the code points
      0..255.
    - The object store is a finite map from blob names to contents; the
      warehouse is a finite map from table names to the rows appended so far.
    - Python exceptions are values of [exn]; a computation is a function
      from the world to an outcome and the world it leaves behind, so that the
      effects performed before a [raise] persist.
    - The libraries the service calls are taken at their interface, the
      class [Services]: [json.loads], which returns a value or raises
      ([JSONDecodeError], and also [RecursionError] and [ValueError], which
      the service does not catch per line), the listing order of
      [bucket.list_blobs()] and the failures of a BigQuery load job, which
      accepts a load of no rows.  The theorems hold for every instance; the
      examples run the service with a reference decoder, the lexicographic
      listing and a chosen warehouse.
    - Storage operations on a blob that is there succeed; logging, which
      writes to a local file, is left out. *)

From Stdlib Require Import Ascii String ZArith Lia.
From stdpp Require Import base option list strings gmap sorting.

Local Open Scope string_scope.
Local Open Scope list_scope.

(* ===================================================================== *)
(** * Python strings *)
(* ===================================================================== *)

Module PyStr.

(** [str.startswith]. *)
Fixpoint startswith (s prefix : string) : bool :=
  match prefix, s with
  | EmptyString, _ => true
  | String p ps, String c cs => Ascii.eqb c p && startswith cs ps
  | String _ _, EmptyString => false
  end.

(** [str.endswith]: some suffix of [s] is [suffix]. *)
Fixpoint endswith (s suffix : string) : bool :=
  String.eqb s suffix ||
  match s with
  | EmptyString => false
  | String _ r => endswith r suffix
  end.

(** [c in s] for a one-character needle. *)
Fixpoint contains (c : ascii) (s : string) : bool :=
  match s with
  | EmptyString => false
  | String d r => Ascii.eqb d c || contains c r
  end.

(** [needle in s]: the substring test. *)
Fixpoint substring_of (needle s : string) : bool :=
  startswith s needle ||
  match s with
  | EmptyString => false
  | String _ r => substring_of needle r
  end.

(** The characters at which [str.splitlines] breaks a line (those below
    256): LF, VT, FF, CR, FS, GS, RS and NEL. *)
Definition is_linebreak (c : ascii) : bool :=
  match c with
  | "010" | "011" | "012" | "013" | "028" | "029" | "030" | "133" => true
  | _ => false
  end%char.

(** The characters for which [str.isspace] holds (those below 256). *)
Definition isspace (c : ascii) : bool :=
  match c with
  | "009" | "010" | "011" | "012" | "013"
  | "028" | "029" | "030" | "031" | " " | "133" | "160" => true
  | _ => false
  end%char.

(** [str.splitlines()]: the lines without their terminators; CR LF is one
    terminator; no empty last line after a final terminator. *)
Fixpoint splitlines (s : string) : list string :=
  match s with
  | EmptyString => []
  | String c r =>
      if is_linebreak c then
        EmptyString ::
          match r with
          | String c' r' =>
              if Ascii.eqb c "013" && Ascii.eqb c' "010"
              then splitlines r' else splitlines r
          | EmptyString => []
          end
      else
        match splitlines r with
        | [] => [String c EmptyString]
        | l :: ls => String c l :: ls
        end
  end.

Fixpoint lstrip (s : string) : string :=
  match s with
  | EmptyString => EmptyString
  | String c r => if isspace c then lstrip r else s
  end.

Definition rstrip (s : string) : string :=
  String.rev (lstrip (String.rev s)).

(** [str.strip()]. *)
Definition strip (s : string) : string := rstrip (lstrip s).

(** Truthiness of a [str]: it is not empty. *)
Definition truthy (s : string) : bool :=
  match s with EmptyString => false | String _ _ => true end.

(** [str.split(sep)] for a one-character separator; with no [maxsplit],
    [rsplit(sep)] returns the same list. *)
Fixpoint split (sep : ascii) (s : string) : list string :=
  match s with
  | EmptyString => [EmptyString]
  | String c r =>
      if Ascii.eqb c sep then EmptyString :: split sep r
      else
        match split sep r with
        | [] => [String c EmptyString]
        | seg :: segs => String c seg :: segs
        end
  end.

Definition rsplit (sep : ascii) (s : string) : list string := split sep s.

(** [str.rfind(c)] for a one-character needle: the index of the last
    occurrence, [-1] when there is none. *)
Fixpoint rfind (c : ascii) (s : string) : Z :=
  match s with
  | EmptyString => (-1)%Z
  | String d r =>
      let i := rfind c r in
      if (0 <=? i)%Z then (i + 1)%Z
      else if Ascii.eqb d c then 0%Z else (-1)%Z
  end.

Fixpoint drop (n : nat) (s : string) : string :=
  match n, s with
  | O, _ => s
  | S n', String _ r => drop n' r
  | S _, EmptyString => EmptyString
  end.

Fixpoint take (n : nat) (s : string) : string :=
  match n, s with
  | O, _ => EmptyString
  | S n', String c r => String c (take n' r)
  | S _, EmptyString => EmptyString
  end.

(** The slice [s[i:j]] for indices that are not negative. *)
Definition slice (i j : Z) (s : string) : string :=
  take (Z.to_nat j - Z.to_nat i) (drop (Z.to_nat i) s).

(** Every character of [s] is [c]. *)
Fixpoint all_chars (c : ascii) (s : string) : bool :=
  match s with
  | EmptyString => true
  | String d r => Ascii.eqb d c && all_chars c r
  end.

End PyStr.

(** ** [os.path] (posixpath) *)

Module OsPath.

(** [os.path.basename(p)]: [i = p.rfind('/') + 1; return p[i:]]. *)
Definition basename (p : string) : string :=
  let i := (PyStr.rfind "/" p + 1)%Z in
  PyStr.drop (Z.to_nat i) p.

(** [os.path.splitext(p)] ([genericpath._splitext]): split at the last dot
    of the last path component, unless that component has only dots before
    it. *)
Definition splitext (p : string) : string * string :=
  let sepIndex := PyStr.rfind "/" p in
  let dotIndex := PyStr.rfind "." p in
  if (sepIndex <? dotIndex)%Z then
    let filenameIndex := (sepIndex + 1)%Z in
    if PyStr.all_chars "." (PyStr.slice filenameIndex dotIndex p)
    then (p, EmptyString)
    else (PyStr.take (Z.to_nat dotIndex) p, PyStr.drop (Z.to_nat dotIndex) p)
  else (p, EmptyString).

End OsPath.

(* ===================================================================== *)
(** * JSON values and Python dictionaries *)
(* ===================================================================== *)

(** What [json.loads] returns.  An object keeps the members of the text in
    their order; [dict_of_pairs] turns them into the [dict] Python builds
    (a later duplicate of a key replaces the value, the key keeps its
    place).  A number with a fraction or an exponent keeps its literal. *)
#[local] Set Warnings "-register-all".
Inductive json : Type :=
| JNull
| JBool (b : bool)
| JInt (z : Z)
| JFloat (lit : string)
| JStr (s : string)
| JArr (items : list json)
| JObj (members : list (string * json)).

(** A Python [dict] with [str] keys, in insertion order. *)
Abbreviation py_dict := (list (string * json)).

Fixpoint dict_get (k : string) (d : py_dict) : option json :=
  match d with
  | [] => None
  | (k', v) :: d' => if String.eqb k' k then Some v else dict_get k d'
  end.

(** [d[k] = v]. *)
Fixpoint dict_set (d : py_dict) (k : string) (v : json) : py_dict :=
  match d with
  | [] => [(k, v)]
  | (k', v') :: d' =>
      if String.eqb k' k then (k', v) :: d' else (k', v') :: dict_set d' k v
  end.

(** [d.update(other)], also what [{..., **other}] does to the entries
    written before it. *)
Definition dict_update (d other : py_dict) : py_dict :=
  fold_left (fun acc kv => dict_set acc (fst kv) (snd kv)) other d.

Definition dict_of_pairs (members : list (string * json)) : py_dict :=
  dict_update [] members.

Definition dict_keys (d : py_dict) : list string := map fst d.

Definition dict_mem (k : string) (d : py_dict) : bool :=
  match dict_get k d with Some _ => true | None => false end.

Definition json_is_str (needle : string) (v : json) : bool :=
  match v with JStr s => String.eqb s needle | _ => false end.

(** ** Exceptions *)

Inductive exn : Type :=
| JSONDecodeError
| ValueError
| RecursionError
| KeyError (key : string)
| TypeError
| IndexError
| NotFound (blob_name : string)
| LoadJobError (reason : string).

Inductive outcome (A : Type) : Type :=
| Ok (a : A)
| Raise (e : exn).
Arguments Ok {A} a.
Arguments Raise {A} e.

(** ** The operations of [main.py] on decoded values *)

(** [needle in v] for a [str] needle: key test on a dict, element test on a
    list, substring test on a str; the other values are not iterable. *)
Definition py_in (needle : string) (v : json) : outcome bool :=
  match v with
  | JObj members => Ok (dict_mem needle (dict_of_pairs members))
  | JArr items => Ok (existsb (json_is_str needle) items)
  | JStr s => Ok (PyStr.substring_of needle s)
  | JNull | JBool _ | JInt _ | JFloat _ => Raise TypeError
  end.

(** [v[key]] for a [str] key. *)
Definition py_getitem (v : json) (key : string) : outcome json :=
  match v with
  | JObj members =>
      match dict_get key (dict_of_pairs members) with
      | Some x => Ok x
      | None => Raise (KeyError key)
      end
  | _ => Raise TypeError
  end.

(** The entries [**v] unpacks: [v] has to be a mapping. *)
Definition py_mapping (v : json) : outcome py_dict :=
  match v with
  | JObj members => Ok (dict_of_pairs members)
  | _ => Raise TypeError
  end.

(* ===================================================================== *)
(** * A reference decoder for JSON texts *)
(* ===================================================================== *)

(** The model takes [json.loads] as a parameter.  [Json.loads] is a decoder
    to instantiate it with: the grammar of Python's [json] module (strict
    strings, the number grammar, [NaN] and the infinities) on texts whose
    [\u] escapes stay below 256.  A text that is not JSON raises
    [JSONDecodeError]; the decoder also raises what CPython's does besides:
    [RecursionError] when arrays and objects are nested deeper than the
    interpreter lets it recurse, and [ValueError] for an integer of more
    digits than the interpreter converts. *)
Module Json.

Definition quote : ascii := "034"%char.

Definition is_ws (c : ascii) : bool :=
  match c with
  | " " | "009" | "010" | "013" => true
  | _ => false
  end%char.

Fixpoint skip_ws (s : string) : string :=
  match s with
  | String c r => if is_ws c then skip_ws r else s
  | EmptyString => EmptyString
  end.

Definition is_digit (c : ascii) : bool :=
  let n := nat_of_ascii c in (48 <=? n)%nat && (n <=? 57)%nat.

Fixpoint span_digits (s : string) : string * string :=
  match s with
  | String c r =>
      if is_digit c then let '(ds, rest) := span_digits r in (String c ds, rest)
      else (EmptyString, s)
  | EmptyString => (EmptyString, EmptyString)
  end.

Fixpoint Z_of_digits (acc : Z) (ds : string) : Z :=
  match ds with
  | String c r => Z_of_digits (10 * acc + (Z.of_nat (nat_of_ascii c) - 48))%Z r
  | EmptyString => acc
  end.

Definition hex_val (c : ascii) : option nat :=
  let n := nat_of_ascii c in
  if (48 <=? n)%nat && (n <=? 57)%nat then Some (n - 48)%nat
  else if (65 <=? n)%nat && (n <=? 70)%nat then Some (n - 55)%nat
  else if (97 <=? n)%nat && (n <=? 102)%nat then Some (n - 87)%nat
  else None.

Definition hex4 (a b c d : ascii) : option nat :=
  match hex_val a, hex_val b, hex_val c, hex_val d with
  | Some x, Some y, Some z, Some w => Some (((x * 16 + y) * 16 + z) * 16 + w)%nat
  | _, _, _, _ => None
  end.

Definition cons_char (c : ascii) (r : option (string * string)) :
  option (string * string) :=
  match r with
  | Some (body, rest) => Some (String c body, rest)
  | None => None
  end.

(** The text after an opening quote: the decoded string and what follows
    the closing quote. *)
Fixpoint string_body (s : string) : option (string * string) :=
  match s with
  | EmptyString => None
  | String c r =>
      if Ascii.eqb c quote then Some (EmptyString, r)
      else if Ascii.eqb c "\" then
        match r with
        | String e r' =>
            if Ascii.eqb e quote then cons_char quote (string_body r')
            else if Ascii.eqb e "\" then cons_char "\" (string_body r')
            else if Ascii.eqb e "/" then cons_char "/" (string_body r')
            else if Ascii.eqb e "b" then cons_char "008" (string_body r')
            else if Ascii.eqb e "f" then cons_char "012" (string_body r')
            else if Ascii.eqb e "n" then cons_char "010" (string_body r')
            else if Ascii.eqb e "r" then cons_char "013" (string_body r')
            else if Ascii.eqb e "t" then cons_char "009" (string_body r')
            else if Ascii.eqb e "u" then
              match r' with
              | String h1 (String h2 (String h3 (String h4 r''))) =>
                  match hex4 h1 h2 h3 h4 with
                  | Some n =>
                      if (n <? 256)%nat
                      then cons_char (ascii_of_nat n) (string_body r'')
                      else None
                  | None => None
                  end
              | _ => None
              end
            else None
        | EmptyString => None
        end
      else if (nat_of_ascii c <? 32)%nat then None
      else cons_char c (string_body r)
  end.

(** A number: an optional minus sign; a zero, or a digit from 1 to 9 and
    more digits; then optionally a dot and digits; then optionally [e] or
    [E], a sign and digits.  What does not fit is left in the text. *)
Definition number (s : string) : option (json * string) :=
  let '(sign, s1) :=
    match s with
    | String "-" r => ("-", r)
    | _ => (EmptyString, s)
    end in
  let int_part :=
    match s1 with
    | String "0" r => Some ("0", r)
    | String c _ =>
        if is_digit c then Some (span_digits s1) else None
    | EmptyString => None
    end in
  match int_part with
  | None => None
  | Some (ds, s2) =>
      let '(frac, s3) :=
        match s2 with
        | String "." r =>
            let '(fs, rest) := span_digits r in
            if PyStr.truthy fs then ("." +:+ fs, rest) else (EmptyString, s2)
        | _ => (EmptyString, s2)
        end in
      let '(expo, s4) :=
        match s3 with
        | String e r =>
            if Ascii.eqb e "e" || Ascii.eqb e "E" then
              let '(sg, r1) :=
                match r with
                | String "+" r0 => ("+", r0)
                | String "-" r0 => ("-", r0)
                | _ => (EmptyString, r)
                end in
              let '(es, rest) := span_digits r1 in
              if PyStr.truthy es
              then (String e EmptyString +:+ sg +:+ es, rest)
              else (EmptyString, s3)
            else (EmptyString, s3)
        | EmptyString => (EmptyString, s3)
        end in
      if PyStr.truthy frac || PyStr.truthy expo
      then Some (JFloat (sign +:+ ds +:+ frac +:+ expo), s4)
      else
        let z := Z_of_digits 0 ds in
        Some (JInt (if PyStr.truthy sign then (- z)%Z else z), s4)
  end.

Definition keyword (s : string) : option (json * string) :=
  if PyStr.startswith s "null" then Some (JNull, PyStr.drop 4 s)
  else if PyStr.startswith s "true" then Some (JBool true, PyStr.drop 4 s)
  else if PyStr.startswith s "false" then Some (JBool false, PyStr.drop 5 s)
  else None.

Definition nonfinite (s : string) : option (json * string) :=
  if PyStr.startswith s "NaN" then Some (JFloat "NaN", PyStr.drop 3 s)
  else if PyStr.startswith s "Infinity" then Some (JFloat "Infinity", PyStr.drop 8 s)
  else if PyStr.startswith s "-Infinity" then Some (JFloat "-Infinity", PyStr.drop 9 s)
  else None.

(** The digits of the integer part of a number at the head of [s]. *)
Definition int_digits (s : string) : nat :=
  String.length
    (span_digits match s with String "-" r => r | _ => s end).1.

(** The limits of the interpreter: how many arrays and objects within each
    other the decoder enters ([sys.getrecursionlimit()], less the frames
    below the call), and how many digits an integer may have
    ([sys.get_int_max_str_digits()]). *)
Record limits : Type := mkLimits {
  max_depth : nat;
  max_digits : nat
}.

(** The defaults of CPython 3.11, where [sys.getrecursionlimit()] is 1000
    and [sys.get_int_max_str_digits()] is 4300; a call from deeper in the
    program enters fewer containers.  The theorems do not depend on the
    limits: they are stated for every decoder. *)
Definition default_limits : limits :=
  {| max_depth := 994; max_digits := 4300 |}.

Definition malformed {A} : outcome A := Raise JSONDecodeError.

(** One value at the head of [s]; [elements] and [members] continue an
    array and an object whose first item starts at the head of [s].
    [depth] is the number of arrays and objects that may still be entered. *)
Fixpoint value (lim : limits) (fuel depth : nat) (s : string) {struct fuel} :
  outcome (json * string) :=
  match fuel with
  | O => malformed
  | S f =>
      match s with
      | EmptyString => malformed
      | String c r =>
          if Ascii.eqb c quote then
            match string_body r with
            | Some (str, rest) => Ok (JStr str, rest)
            | None => malformed
            end
          else if Ascii.eqb c "{" then
            match depth with
            | O => Raise RecursionError
            | S d =>
                match skip_ws r with
                | String "}" rest => Ok (JObj [], rest)
                | r1 => members lim f d r1 []
                end
            end
          else if Ascii.eqb c "[" then
            match depth with
            | O => Raise RecursionError
            | S d =>
                match skip_ws r with
                | String "]" rest => Ok (JArr [], rest)
                | r1 => elements lim f d r1 []
                end
            end
          else
            match keyword s with
            | Some x => Ok x
            | None =>
                match number s with
                | Some (JInt z, rest) =>
                    if (max_digits lim <? int_digits s)%nat
                    then Raise ValueError
                    else Ok (JInt z, rest)
                | Some x => Ok x
                | None =>
                    match nonfinite s with
                    | Some x => Ok x
                    | None => malformed
                    end
                end
            end
      end
  end
with elements (lim : limits) (fuel depth : nat) (s : string) (acc : list json)
  {struct fuel} : outcome (json * string) :=
  match fuel with
  | O => malformed
  | S f =>
      match value lim f depth s with
      | Ok (v, rest) =>
          match skip_ws rest with
          | String "," rest' => elements lim f depth (skip_ws rest') (v :: acc)
          | String "]" rest' => Ok (JArr (rev (v :: acc)), rest')
          | _ => malformed
          end
      | Raise e => Raise e
      end
  end
with members (lim : limits) (fuel depth : nat) (s : string)
  (acc : list (string * json)) {struct fuel} : outcome (json * string) :=
  match fuel with
  | O => malformed
  | S f =>
      match s with
      | String c r =>
          if Ascii.eqb c quote then
            match string_body r with
            | Some (k, rest) =>
                match skip_ws rest with
                | String ":" rest1 =>
                    match value lim f depth (skip_ws rest1) with
                    | Ok (v, rest2) =>
                        match skip_ws rest2 with
                        | String "," rest3 =>
                            members lim f depth (skip_ws rest3) ((k, v) :: acc)
                        | String "}" rest3 =>
                            Ok (JObj (rev ((k, v) :: acc)), rest3)
                        | _ => malformed
                        end
                    | Raise e => Raise e
                    end
                | _ => malformed
                end
            | None => malformed
            end
          else malformed
      | EmptyString => malformed
      end
  end.

(** [json.loads(s)] under given limits: one value between optional white
    space. *)
Definition loads_within (lim : limits) (s : string) : outcome json :=
  match value lim (2 * String.length s + 2) (max_depth lim) (skip_ws s) with
  | Ok (v, rest) =>
      match skip_ws rest with
      | EmptyString => Ok v
      | String _ _ => malformed
      end
  | Raise e => Raise e
  end.

(** [json.loads(s)] *)
Definition loads (s : string) : outcome json := loads_within default_limits s.

(** [n] times the string [s]. *)
Fixpoint times (n : nat) (s : string) : string :=
  match n with
  | O => EmptyString
  | S n' => s +:+ times n' s
  end.

(** Test inputs are written with apostrophes for the double quotes. *)
Fixpoint dq (s : string) : string :=
  match s with
  | EmptyString => EmptyString
  | String c r => String (if Ascii.eqb c "'" then quote else c) (dq r)
  end.

End Json.

(* ===================================================================== *)
(** * Data frames, schemas and load jobs *)
(* ===================================================================== *)

(** A [pandas.DataFrame] built from a list of records: the columns are the
    keys of the records in the order of their first occurrence, the rows are
    the records. *)
Record DataFrame : Type := mkDataFrame {
  columns : list string;
  rows : list py_dict
}.

Definition add_column (cols : list string) (k : string) : list string :=
  if existsb (String.eqb k) cols then cols else cols ++ [k].

Definition frame_columns (records : list py_dict) : list string :=
  fold_left (fun cols r => fold_left add_column (dict_keys r) cols) records [].

(** [pd.DataFrame(records)] *)
Definition pd_DataFrame (records : list py_dict) : DataFrame :=
  {| columns := frame_columns records; rows := records |}.

(** [pd.DataFrame()] *)
Definition pd_DataFrame_empty : DataFrame :=
  {| columns := []; rows := [] |}.

(** [pd.DataFrame(records) if records else pd.DataFrame()] *)
Definition frame_of_records (records : list py_dict) : DataFrame :=
  match records with
  | _ :: _ => pd_DataFrame records
  | [] => pd_DataFrame_empty
  end.

Record SchemaField : Type := mkSchemaField {
  field_name : string;
  field_type : string
}.

Inductive SourceFormat : Type := CSV | PARQUET | NEWLINE_DELIMITED_JSON.
Inductive WriteDisposition : Type := WRITE_APPEND | WRITE_TRUNCATE | WRITE_EMPTY.

Record LoadJobConfig : Type := mkLoadJobConfig {
  schema : list SchemaField;
  source_format : SourceFormat;
  write_disposition : WriteDisposition
}.

(** The [job_config] of [create_or_append_table]. *)
Definition job_config_of (df : DataFrame) : LoadJobConfig :=
  {| schema := map (fun col => mkSchemaField col "STRING") (columns df);
     source_format := CSV;
     write_disposition := WRITE_APPEND |}.

(* ===================================================================== *)
(** * The world: object store, warehouse and the operations performed *)
(* ===================================================================== *)

Inductive effect : Type :=
| EvDownload (blob_name : string)
| EvUpload (blob_name : string) (data : string)
| EvDelete (blob_name : string)
| EvLoadJob (table_name : string) (cfg : LoadJobConfig) (df : DataFrame).

Record World : Type := mkWorld {
  blobs : gmap string string;
  tables : gmap string (list py_dict);
  trace : list effect
}.

Definition log_effect (e : effect) (w : World) : World :=
  {| blobs := blobs w; tables := tables w; trace := trace w ++ [e] |}.

Definition set_blobs (b : gmap string string) (w : World) : World :=
  {| blobs := b; tables := tables w; trace := trace w |}.

Definition set_tables (t : gmap string (list py_dict)) (w : World) : World :=
  {| blobs := blobs w; tables := t; trace := trace w |}.

(** The rows of a table; a table that was never loaded has none. *)
Definition table_rows (w : World) (table_name : string) : list py_dict :=
  default [] (tables w !! table_name).

(** ** Computations that change the world and may raise *)

Definition M (A : Type) : Type := World → outcome A * World.

Definition ret {A} (a : A) : M A := fun w => (Ok a, w).

Definition raise {A} (e : exn) : M A := fun w => (Raise e, w).

Definition bind {A B} (m : M A) (k : A → M B) : M B :=
  fun w =>
    match m w with
    | (Ok a, w') => k a w'
    | (Raise e, w') => (Raise e, w')
    end.

(** [try: m except Exception as e: handler e] *)
Definition try_except {A} (m : M A) (handler : exn → M A) : M A :=
  fun w =>
    match m w with
    | (Ok a, w') => (Ok a, w')
    | (Raise e, w') => handler e w'
    end.

Definition lift {A} (o : outcome A) : M A := fun w => (o, w).

Declare Scope py_scope.
Delimit Scope py_scope with py.
Notation "x <- m ;; k" := (bind m (fun x => k))
  (at level 100, m at next level, right associativity) : py_scope.
Notation "m ;;; k" := (bind m (fun _ => k))
  (at level 100, right associativity) : py_scope.

(** The same sequencing for computations that only raise. *)
Definition obind {A B} (o : outcome A) (k : A → outcome B) : outcome B :=
  match o with
  | Ok a => k a
  | Raise e => Raise e
  end.
Notation "x <~ o ;; k" := (obind o (fun x => k))
  (at level 100, o at next level, right associativity) : py_scope.

Local Open Scope py_scope.

(** ** The object store ([google.cloud.storage]) *)

(** [bucket.blob(name).exists()] *)
Definition blob_exists (name : string) : M bool :=
  fun w => (Ok (bool_decide (is_Some (blobs w !! name))), w).

(** [blob.download_as_text()] and [blob.download_as_string()]: the content,
    [NotFound] for a blob that is not there. *)
Definition blob_download (name : string) : M string :=
  fun w =>
    match blobs w !! name with
    | Some data => (Ok data, log_effect (EvDownload name) w)
    | None => (Raise (NotFound name), w)
    end.

(** [blob.upload_from_string(data)] *)
Definition blob_upload (name data : string) : M unit :=
  fun w => (Ok tt, log_effect (EvUpload name data) (set_blobs (<[name := data]> (blobs w)) w)).

(** [blob.delete()] *)
Definition blob_delete (name : string) : M unit :=
  fun w =>
    match blobs w !! name with
    | Some _ => (Ok tt, log_effect (EvDelete name) (set_blobs (delete name (blobs w)) w))
    | None => (Raise (NotFound name), w)
    end.

(* ===================================================================== *)
(** * The service *)
(* ===================================================================== *)

(** What the handler answers: [{'message': ...}] or [{'error': str(e)}]. *)
Inductive response : Type :=
| Message (text : string)
| ErrorResponse (e : exn).

Definition success_message : string :=
  "JSON files ingested into BigQuery tables successfully!".

(** The libraries behind the service, at their interface. *)
Class Services : Type := {
  (** [json.loads]: the value decoded, or the exception raised
      ([json.JSONDecodeError] for a text that is not JSON; the decoder may
      raise others, such as [RecursionError] and [ValueError]). *)
  json_loads : string → outcome json;
  (** The names [bucket.list_blobs()] yields for a store, in its order. *)
  list_blobs : gmap string string → list string;
  (** Whether the load job of a frame into a table fails, and how. *)
  load_failure :
    gmap string (list py_dict) → string → LoadJobConfig → DataFrame → option exn;
  (** Modelled from the spec: the warehouse, a service outside the
      repository, of which the specification says that loading zero rows is
      a legal no-op. *)
  load_of_no_rows :
    ∀ tables table_name cfg df,
      rows df = [] → load_failure tables table_name cfg df = None
}.

Section Service.

Context {svc : Services}.

(** ** Record transformer *)

(** The body of the [try] for one line: the record to append, if the line
    has a [payload]. *)
Definition line_record (line : string) : outcome (option py_dict) :=
  json_obj <~ json_loads line ;;
  has_payload <~ py_in "payload" json_obj ;;
  if has_payload : bool then
    source_metadata <~ py_getitem json_obj "source_metadata" ;;
    change_type <~ py_getitem source_metadata "change_type" ;;
    source_timestamp <~ py_getitem json_obj "source_timestamp" ;;
    payload <~ py_getitem json_obj "payload" ;;
    items <~ py_mapping payload ;;
    Ok (Some (dict_update
                (dict_set (dict_set [] "change_type" change_type)
                          "source_timestamp" source_timestamp)
                items))
  else Ok None.

(** One turn of the loop over the lines: only [JSONDecodeError] is caught. *)
Definition transform_line (records : list py_dict) (line : string) :
  outcome (list py_dict) :=
  if PyStr.truthy (PyStr.strip line) then
    match line_record line with
    | Ok (Some record) => Ok (records ++ [record])
    | Ok None => Ok records
    | Raise JSONDecodeError => Ok records
    | Raise e => Raise e
    end
  else Ok records.

Fixpoint transform_lines (lines : list string) (records : list py_dict) :
  outcome (list py_dict) :=
  match lines with
  | [] => Ok records
  | line :: rest =>
      records' <~ transform_line records line ;;
      transform_lines rest records'
  end.

Definition load_json_to_dataframe (file_content : string) : outcome DataFrame :=
  records <~ transform_lines (PyStr.splitlines file_content) [] ;;
  Ok (frame_of_records records).

(** ** Table loader *)

(** [bigquery_client.load_table_from_dataframe(df, table_ref, job_config)]
    followed by [job.result()]: the job fails as [load_failure] says, or
    appends the rows of the frame to the table. *)
Definition load_table_from_dataframe
    (df : DataFrame) (table_name : string) (cfg : LoadJobConfig) : M unit :=
  fun w =>
    let w' := log_effect (EvLoadJob table_name cfg df) w in
    match load_failure (tables w) table_name cfg df with
    | Some e => (Raise e, w')
    | None =>
        (Ok tt,
         set_tables (<[table_name := table_rows w table_name ++ rows df]> (tables w)) w')
    end.

Definition create_or_append_table (table_name : string) (df : DataFrame) : M unit :=
  load_table_from_dataframe df table_name (job_config_of df).

(** ** Relocation *)

Definition move_blob_to_folder (blob_name folder_name : string) : M unit :=
  try_except
    (data <- blob_download blob_name ;;
     blob_upload (folder_name +:+ "/" +:+ blob_name) data ;;;
     blob_delete blob_name)
    (fun _ => ret tt).

(** ** Folder manager *)

Definition create_folders : M unit :=
  archive_exists <- blob_exists "Archive/" ;;
  (if negb archive_exists then blob_upload "Archive/" "" else ret tt) ;;;
  error_exists <- blob_exists "Error/" ;;
  (if negb error_exists then blob_upload "Error/" "" else ret tt).

(** ** Per-file processing *)

Definition process_blob (blob_name table_name : string) : M unit :=
  file_content <- blob_download blob_name ;;
  if negb (PyStr.truthy (PyStr.strip file_content)) then
    move_blob_to_folder blob_name "Error"
  else
    df <- lift (load_json_to_dataframe file_content) ;;
    create_or_append_table table_name df.

Definition process_blob_with_error_handling (blob_name table_name : string) : M unit :=
  try_except
    (process_blob blob_name table_name ;;;
     still_there <- blob_exists blob_name ;;
     if negb still_there then ret tt
     else move_blob_to_folder blob_name "Archive")
    (fun e => move_blob_to_folder blob_name "Error" ;;; raise e).

(** ** Orchestrator *)

(** [parts = os.path.splitext(os.path.basename(name))[0].rsplit('_')];
    [parts[1]] raises [IndexError] when there is no second part. *)
Definition table_name_of (blob_name : string) : outcome string :=
  let parts := PyStr.rsplit "_" (fst (OsPath.splitext (OsPath.basename blob_name))) in
  match parts !! 1%nat with
  | Some table_name => Ok table_name
  | None => Raise IndexError
  end.

(** The body of [for blob in bucket.list_blobs()]. *)
Definition ingest_blob (blob_name : string) : M unit :=
  if PyStr.startswith blob_name "Error/" || PyStr.startswith blob_name "Archive/"
  then ret tt
  else if negb (PyStr.endswith blob_name ".jsonl")
  then move_blob_to_folder blob_name "Error"
  else
    table_name <- lift (table_name_of blob_name) ;;
    process_blob_with_error_handling blob_name table_name.

Fixpoint ingest_loop (names : list string) : M unit :=
  match names with
  | [] => ret tt
  | blob_name :: rest => ingest_blob blob_name ;;; ingest_loop rest
  end.

(** The handler of [POST /ingest_json], from [create_folders] on. *)
Definition ingest_json_to_bigquery (w : World) : response * World :=
  match (create_folders ;;;
         names <- (fun w => (Ok (list_blobs (blobs w)), w)) ;;
         ingest_loop names) w with
  | (Ok _, w') => (Message success_message, w')
  | (Raise e, w') => (ErrorResponse e, w')
  end.

End Service.

(* ===================================================================== *)
(** * Instances of the parameters *)
(* ===================================================================== *)

(** Cloud Storage lists the names of a bucket in lexicographic order. *)
Definition list_blobs_sorted (store : gmap string string) : list string :=
  merge_sort strings.String.le (elements (dom store)).

(** A warehouse that accepts every load job. *)
Definition load_always_succeeds :
  gmap string (list py_dict) → string → LoadJobConfig → DataFrame → option exn :=
  fun _ _ _ _ => None.

(** A warehouse that rejects the load jobs that bring rows into one table. *)
Definition load_fails_for (bad_table : string) :
  gmap string (list py_dict) → string → LoadJobConfig → DataFrame → option exn :=
  fun _ table_name _ df =>
    match rows df with
    | [] => None
    | _ :: _ =>
        if String.eqb table_name bad_table
        then Some (LoadJobError "injected load error") else None
    end.

(** The reference decoder, the lexicographic listing and a warehouse. *)
Definition services_with
    (failure : gmap string (list py_dict) → string → LoadJobConfig → DataFrame → option exn)
    (no_rows : ∀ tables table_name cfg df,
                 rows df = [] → failure tables table_name cfg df = None) :
  Services :=
  {| json_loads := Json.loads;
     list_blobs := list_blobs_sorted;
     load_failure := failure;
     load_of_no_rows := no_rows |}.

Definition empty_world (store : gmap string string) : World :=
  {| blobs := store; tables := ∅; trace := [] |}.

(** A line feed, to write the content of test files. *)
Definition LF : string := String "010" EmptyString.

(** The services of the examples: the reference decoder, the lexicographic
    listing and a warehouse that accepts every job. *)
Definition reference_services : Services :=
  services_with load_always_succeeds (fun _ _ _ _ _ => eq_refl).

Definition insert_event : string :=
  Json.dq "{'source_metadata': {'change_type': 'INSERT'}, 'source_timestamp': 't1', 'payload': {'id': 1, 'name': 'a'}}".

Definition delete_event : string :=
  Json.dq "{'source_metadata': {'change_type': 'DELETE'}, 'source_timestamp': 't2', 'payload': {'id': 1}}".

(** An event whose payload has a key [change_type] of its own. *)
Definition colliding_event : string :=
  Json.dq "{'source_metadata': {'change_type': 'UPDATE'}, 'source_timestamp': 't3', 'payload': {'id': 7, 'change_type': 'shadow'}}".

(** An object with a payload and no [source_metadata]. *)
Definition event_without_metadata : string :=
  Json.dq "{'source_timestamp': 't4', 'payload': {'id': 2}}".

(** A bucket with three well-formed files; the table of the second one is
    the one [load_fails_for "bad"] rejects. *)
Definition three_files : World :=
  empty_world (<["a_first.jsonl" := insert_event]>
              (<["b_bad.jsonl" := insert_event]>
              (<["c_last.jsonl" := delete_event]> ∅))).

(** That warehouse accepts a load of no rows. *)
Definition load_fails_for_no_rows (bad_table : string) :
  ∀ tables table_name cfg df,
    rows df = [] → load_fails_for bad_table tables table_name cfg df = None.
Proof. intros tables table_name cfg df Hrows. unfold load_fails_for. by rewrite Hrows. Qed.

Definition failing_services : Services :=
  services_with (load_fails_for "bad") (load_fails_for_no_rows "bad").



(** A bucket with an archived file, a text file and a candidate. *)
Definition mixed_files : World :=
  empty_world (<["Archive/evt_old.jsonl" := insert_event]>
              (<["notes.txt" := "hello"]>
              (<["evt_orders.jsonl" := insert_event]> ∅))).

(** The scenario of the specification: one file with two events and an
    empty line. *)
Definition scenario_bucket : World :=
  empty_world (<["evt_orders.jsonl" :=
                   insert_event +:+ LF +:+ LF +:+ delete_event +:+ LF]> ∅).

(** A bucket whose first candidate has no underscore in its name. *)
Definition unnamed_table : World :=
  empty_world (<["orders.jsonl" := insert_event]>
              (<["z_later.jsonl" := delete_event]> ∅)).

(** Two events between an empty line, a line that is not JSON and an object
    without payload. *)
Definition noisy_content : string :=
  insert_event +:+ LF +:+ LF +:+ "not json" +:+ LF +:+
  Json.dq "{'heartbeat': true}" +:+ LF +:+ delete_event +:+ LF.

(* ===================================================================== *)
(** * Vocabulary of the properties *)
(* ===================================================================== *)

(** The world after the blob [name], whose content is [data], has been
    copied under [folder] and deleted. *)
Definition relocated (folder name data : string) (w : World) : World :=
  {| blobs := delete name (<[folder +:+ "/" +:+ name := data]> (blobs w));
     tables := tables w;
     trace := trace w ++ [EvDownload name;
                          EvUpload (folder +:+ "/" +:+ name) data;
                          EvDelete name] |}.

(** The uploads [create_folders] has to perform in a world. *)
Definition missing_markers (store : gmap string string) : list effect :=
  (if bool_decide (is_Some (store !! "Archive/")) then [] else [EvUpload "Archive/" ""]) ++
  (if bool_decide (is_Some (store !! "Error/")) then [] else [EvUpload "Error/" ""]).

(** The store with the marker [name], created empty if it was missing. *)
Definition ensure_marker (name : string) (store : gmap string string) :
  gmap string string :=
  if bool_decide (is_Some (store !! name)) then store else <[name := ""]> store.

Definition is_load (e : effect) : bool :=
  match e with EvLoadJob _ _ _ => true | _ => false end.

(** A name under one of the two outcome folders. *)
Definition in_outcome_zone (name : string) : bool :=
  PyStr.startswith name "Error/" || PyStr.startswith name "Archive/".

Section Lines.

Context {svc : Services}.

Definition blank (line : string) : bool :=
  negb (PyStr.truthy (PyStr.strip line)).

(** The dict of a line that decodes to a JSON object. *)
Definition line_object (line : string) : option py_dict :=
  match json_loads line with
  | Ok (JObj members) => Some (dict_of_pairs members)
  | _ => None
  end.

(** A qualifying line: a JSON object with a [payload] key. *)
Definition qualifying (line : string) : bool :=
  negb (blank line) &&
  match line_object line with
  | Some d => dict_mem "payload" d
  | None => false
  end.

(** A line that is empty, on which [json.loads] raises [JSONDecodeError],
    or that it decodes to an object without a [payload] key. *)
Definition skippable (line : string) : bool :=
  blank line ||
  match json_loads line with
  | Raise JSONDecodeError => true
  | Raise _ => false
  | Ok (JObj members) => negb (dict_mem "payload" (dict_of_pairs members))
  | Ok _ => false
  end.

(** The record of a change event: a line that [json.loads] decodes to an
    object with [source_metadata.change_type], [source_timestamp] and an
    object as [payload]; the payload is merged in last. *)
Definition event_record (line : string) : option py_dict :=
  if blank line then None
  else
    match line_object line with
    | Some d =>
        match dict_get "payload" d, dict_get "source_metadata" d,
              dict_get "source_timestamp" d with
        | Some (JObj payload), Some (JObj source_metadata), Some source_timestamp =>
            match dict_get "change_type" (dict_of_pairs source_metadata) with
            | Some change_type =>
                Some (dict_update [("change_type", change_type);
                                   ("source_timestamp", source_timestamp)]
                                  (dict_of_pairs payload))
            | None => None
            end
        | _, _, _ => None
        end
    | None => None
    end.

End Lines.

(** ** Vocabulary of the further properties *)

(** A computation keeps a property of the world, whatever its outcome. *)
Definition preserves {A} (I : World → Prop) (m : M A) : Prop :=
  ∀ w, I w → I (m w).2.

(** A load job that appends, from CSV, under a schema with one STRING
    column for each column of the frame. *)
Definition append_job (ev : effect) : Prop :=
  match ev with
  | EvLoadJob _ cfg df =>
      write_disposition cfg = WRITE_APPEND ∧
      source_format cfg = CSV ∧
      map field_name (schema cfg) = columns df ∧
      Forall (fun f => field_type f = "STRING") (schema cfg)
  | _ => True
  end.

(** The shape of a record of a change event: the two extracted fields come
    first, both are bound, and no key occurs twice. *)
Definition event_shaped (r : py_dict) : Prop :=
  (∃ others, dict_keys r = "change_type" :: "source_timestamp" :: others) ∧
  NoDup (dict_keys r) ∧
  is_Some (dict_get "change_type" r) ∧
  is_Some (dict_get "source_timestamp" r).

(** A property of the store. *)
Definition on_store (P : gmap string string → Prop) : World → Prop :=
  fun w => P (blobs w).

(** A property of the store that the relocation of [name] keeps: writing
    under [Error/] or [Archive/] and deleting [name]. *)
Definition moves_keep (P : gmap string string → Prop) (name : string) : Prop :=
  (∀ m data, P m → P (<["Error" +:+ "/" +:+ name := data]> m)) ∧
  (∀ m data, P m → P (<["Archive" +:+ "/" +:+ name := data]> m)) ∧
  (∀ m, P m → P (delete name m)).

(** The errors of a decoded line that has not the shape of an event. *)
Definition shape_error (e : exn) : Prop :=
  e = TypeError ∨ e = KeyError "source_metadata"
  ∨ e = KeyError "change_type" ∨ e = KeyError "source_timestamp".

(** A number, a boolean or [null]. *)
Definition scalar (v : json) : bool :=
  match v with
  | JNull | JBool _ | JInt _ | JFloat _ => true
  | JStr _ | JArr _ | JObj _ => false
  end.

Section FurtherVocabulary.

Context {svc : Services}.

(** A line the loop passes over without a record and without an error: it
    is blank, [json.loads] raises [JSONDecodeError] on it, or it decodes to
    a dict, list or str in which ["payload"] does not occur. *)
Definition silently_skipped (line : string) : bool :=
  blank line ||
  match json_loads line with
  | Raise JSONDecodeError => true
  | Raise _ => false
  | Ok v =>
      match py_in "payload" v with
      | Ok false => true
      | _ => false
      end
  end.


End FurtherVocabulary.

(** An event, then a line of 1200 opening brackets. *)
Definition deeply_nested_content : string :=
  insert_event +:+ LF +:+ Json.times 1200 "[".

(** An event whose [id] has 4301 digits. *)
Definition huge_integer_event : string :=
  Json.dq "{'source_metadata': {'change_type': 'INSERT'}, 'source_timestamp': 't1', 'payload': {'id': "
  +:+ Json.times 4301 "1" +:+ "}}".

(** A file with a number on its second line. *)
Definition number_line_content : string :=
  insert_event +:+ LF +:+ "5" +:+ LF +:+ delete_event.

(** A list and a string at the place of an event, and a number. *)
Definition odd_lines_content : string :=
  insert_event +:+ LF +:+ "[1, 2]" +:+ LF +:+ Json.dq "'hello'" +:+ LF +:+ delete_event.

(* ===================================================================== *)
(** * Proofs *)
(* ===================================================================== *)

(** ** The library models at known inputs *)

Example splitlines_mixed_terminators :
  PyStr.splitlines ("a" +:+ LF +:+ LF +:+ "b" +:+ String "013" LF) = ["a"; ""; "b"]
  ∧ PyStr.splitlines LF = [""]
  ∧ PyStr.splitlines "" = []
  ∧ PyStr.splitlines ("a" +:+ String "013" (String "013" "b")) = ["a"; ""; "b"].
Proof. split_and!; reflexivity. Qed.

Example strip_whitespace :
  PyStr.strip ("  a b " +:+ LF) = "a b" ∧ PyStr.strip (String "009" (String "160" " ")) = "".
Proof. split; reflexivity. Qed.

Example splitext_known_paths :
  OsPath.splitext "dir/evt_orders.jsonl" = ("dir/evt_orders", ".jsonl")
  ∧ OsPath.splitext ".jsonl" = (".jsonl", "")
  ∧ OsPath.splitext "..jsonl" = ("..jsonl", "")
  ∧ OsPath.splitext "x.y/z" = ("x.y/z", "")
  ∧ OsPath.splitext "...a.b" = ("...a", ".b")
  ∧ OsPath.basename "a_b/file.jsonl" = "file.jsonl"
  ∧ PyStr.rsplit "_" "_a" = [""; "a"].
Proof. split_and!; reflexivity. Qed.

Example loads_known_texts :
  Json.loads (Json.dq "{'a' : 1 , 'b':[true, null, -2.5e3, 'x\ny']}")
    = Ok (JObj [("a", JInt 1);
                ("b", JArr [JBool true; JNull; JFloat "-2.5e3";
                            JStr ("x" +:+ LF +:+ "y")])])
  ∧ Json.loads (Json.dq " {} ") = Ok (JObj [])
  ∧ Json.loads (Json.dq "-0") = Ok (JInt 0)
  ∧ Json.loads "[1,]" = Raise JSONDecodeError
  ∧ Json.loads "01" = Raise JSONDecodeError
  ∧ Json.loads "1." = Raise JSONDecodeError
  ∧ Json.loads "not json" = Raise JSONDecodeError
  ∧ Json.loads "" = Raise JSONDecodeError.
Proof. split_and!; vm_compute; reflexivity. Qed.

(** What the decoder raises besides [JSONDecodeError]: [RecursionError]
    for containers nested deeper than the interpreter allows, [ValueError]
    for an integer of more digits than the interpreter converts.  A
    malformed text is rejected before either limit is met, and a number
    with a fraction is not subject to the limit on digits. *)
Example loads_at_the_limits :
  Json.loads (Json.times 1200 "[") = Raise RecursionError
  ∧ Json.loads (Json.times 1200 (Json.dq "{'a':")) = Raise RecursionError
  ∧ Json.loads (Json.times 1200 "{") = Raise JSONDecodeError
  ∧ Json.loads ("x" +:+ Json.times 1200 "[") = Raise JSONDecodeError
  ∧ Json.loads (Json.times 100 "[") = Raise JSONDecodeError
  ∧ Json.loads (Json.times 4301 "1") = Raise ValueError
  ∧ Json.loads ("-" +:+ Json.times 4301 "1") = Raise ValueError
  ∧ Json.loads (Json.times 4300 "1") = Ok (JInt (Json.Z_of_digits 0 (Json.times 4300 "1")))
  ∧ Json.loads (Json.times 4301 "1" +:+ ".5")
    = Ok (JFloat (Json.times 4301 "1" +:+ ".5")).
Proof. split_and!; vm_compute; reflexivity. Qed.

Example duplicate_key_keeps_last_value :
  py_getitem (JObj [("a", JInt 1); ("b", JInt 0); ("a", JInt 2)]) "a" = Ok (JInt 2)
  ∧ dict_of_pairs [("a", JInt 1); ("b", JInt 0); ("a", JInt 2)]
    = [("a", JInt 2); ("b", JInt 0)].
Proof. split; reflexivity. Qed.

Example membership_by_kind_of_value :
  py_in "payload" (JInt 5) = Raise TypeError
  ∧ py_in "payload" JNull = Raise TypeError
  ∧ py_in "payload" (JStr "xpayloadx") = Ok true
  ∧ py_in "payload" (JArr [JStr "payload"]) = Ok true
  ∧ py_in "payload" (JArr [JInt 1]) = Ok false
  ∧ py_in "payload" (JObj [("payload", JInt 1)]) = Ok true.
Proof. split_and!; reflexivity. Qed.

(** ** Dictionaries *)

Lemma dict_get_set_eq (d : py_dict) k v : dict_get k (dict_set d k v) = Some v.
Proof.
  induction d as [|[k' v'] d IH]; simpl.
  - by rewrite String.eqb_refl.
  - destruct (String.eqb k' k) eqn:E; simpl; rewrite E; auto.
Qed.

Lemma dict_get_set_ne (d : py_dict) k k' v :
  k ≠ k' → dict_get k' (dict_set d k v) = dict_get k' d.
Proof.
  intros Hne. induction d as [|[k0 v0] d IH]; simpl.
  - destruct (String.eqb k k') eqn:E; [|done].
    apply String.eqb_eq in E. congruence.
  - destruct (String.eqb k0 k) eqn:E; simpl.
    + apply String.eqb_eq in E. subst k0.
      destruct (String.eqb k k') eqn:E'; [|done].
      apply String.eqb_eq in E'. congruence.
    + destruct (String.eqb k0 k'); auto.
Qed.

Lemma dict_get_set (d : py_dict) k k' v :
  dict_get k' (dict_set d k v) = if String.eqb k k' then Some v else dict_get k' d.
Proof.
  destruct (String.eqb k k') eqn:E.
  - apply String.eqb_eq in E. subst. apply dict_get_set_eq.
  - apply String.eqb_neq in E. by apply dict_get_set_ne.
Qed.

Lemma dict_get_two k a b (x y : json) :
  dict_get k [(a, x); (b, y)] =
  if String.eqb a k then Some x else if String.eqb b k then Some y else None.
Proof. reflexivity. Qed.

Lemma dict_keys_set (d : py_dict) k v :
  dict_keys (dict_set d k v) =
  if dict_mem k d then dict_keys d else dict_keys d ++ [k].
Proof.
  unfold dict_mem. induction d as [|[k' v'] d IH]; simpl; [done|].
  destruct (String.eqb k' k) eqn:E; simpl.
  - apply String.eqb_eq in E. by subst.
  - rewrite IH. by destruct (dict_get k d).
Qed.

Lemma dict_mem_keys (d : py_dict) k : dict_mem k d = true ↔ k ∈ dict_keys d.
Proof.
  unfold dict_mem, dict_keys. induction d as [|[k' v'] d IH]; simpl.
  - split; [done|]. by intros ?%elem_of_nil.
  - destruct (String.eqb k' k) eqn:E.
    + apply String.eqb_eq in E. subst. split; [|done]. intros _. by left.
    + apply String.eqb_neq in E. rewrite elem_of_cons, IH.
      split; [by right|]. intros [->|?]; [congruence|done].
Qed.

Lemma dict_get_update (d other : py_dict) k :
  NoDup (dict_keys other) →
  dict_get k (dict_update d other) =
  match dict_get k other with
  | Some v => Some v
  | None => dict_get k d
  end.
Proof.
  unfold dict_update. revert d.
  induction other as [|[k' v'] other IH]; intros d Hnd; simpl; [done|].
  apply NoDup_cons in Hnd as [Hnotin Hnd].
  change (k' ∉ dict_keys other) in Hnotin.
  rewrite IH by done.
  destruct (dict_get k other) eqn:Hk.
  - destruct (String.eqb k' k) eqn:E; [|done].
    apply String.eqb_eq in E as ->. exfalso. apply Hnotin.
    apply dict_mem_keys. unfold dict_mem. by rewrite Hk.
  - rewrite (dict_get_set d k' k v'). by destruct (String.eqb k' k).
Qed.

Lemma dict_update_keys_NoDup (d other : py_dict) :
  NoDup (dict_keys d) → NoDup (dict_keys (dict_update d other)).
Proof.
  unfold dict_update. revert d.
  induction other as [|[k v] other IH]; intros d Hnd; simpl; [done|].
  apply IH. simpl. rewrite dict_keys_set.
  destruct (dict_mem k d) eqn:E; [done|].
  apply NoDup_app. split_and!; [done| |apply NoDup_singleton].
  intros x Hx ->%list_elem_of_singleton.
  apply dict_mem_keys in Hx. congruence.
Qed.

Lemma dict_of_pairs_NoDup members : NoDup (dict_keys (dict_of_pairs members)).
Proof. apply dict_update_keys_NoDup. constructor. Qed.

(** ** Schema derivation *)

Lemma existsb_eqb_elem_of (k : string) (cols : list string) :
  existsb (String.eqb k) cols = true ↔ k ∈ cols.
Proof.
  rewrite existsb_exists. split.
  - intros (x & Hin & ->%String.eqb_eq). by apply list_elem_of_In.
  - intros Hin. exists k. split; [by apply list_elem_of_In|apply String.eqb_refl].
Qed.

Lemma elem_of_add_column cols k col :
  col ∈ add_column cols k ↔ col ∈ cols ∨ col = k.
Proof.
  unfold add_column. destruct (existsb (String.eqb k) cols) eqn:E.
  - apply existsb_eqb_elem_of in E. split; [by left|]. by intros [?| ->].
  - rewrite elem_of_app, list_elem_of_singleton. done.
Qed.

Lemma NoDup_add_column cols k : NoDup cols → NoDup (add_column cols k).
Proof.
  intros Hnd. unfold add_column.
  destruct (existsb (String.eqb k) cols) eqn:E; [done|].
  apply NoDup_app. split_and!; [done| |apply NoDup_singleton].
  intros x Hx ->%list_elem_of_singleton.
  apply existsb_eqb_elem_of in Hx. congruence.
Qed.

Lemma elem_of_fold_add_column keys cols col :
  col ∈ fold_left add_column keys cols ↔ col ∈ cols ∨ col ∈ keys.
Proof.
  revert cols. induction keys as [|k keys IH]; intros cols; simpl.
  - split; [by left|]. intros [?|?%elem_of_nil]; done.
  - rewrite IH, elem_of_add_column, elem_of_cons. tauto.
Qed.

Lemma NoDup_fold_add_column keys cols :
  NoDup cols → NoDup (fold_left add_column keys cols).
Proof.
  revert cols. induction keys as [|k keys IH]; intros cols Hnd; simpl; [done|].
  by apply IH, NoDup_add_column.
Qed.

Lemma elem_of_fold_columns (records : list py_dict) cols col :
  col ∈ fold_left (fun cols r => fold_left add_column (dict_keys r) cols) records cols
  ↔ col ∈ cols ∨ ∃ r, r ∈ records ∧ col ∈ dict_keys r.
Proof.
  revert cols. induction records as [|r records IH]; intros cols; simpl.
  - split; [by left|]. intros [?|(r & ?%elem_of_nil & _)]; done.
  - rewrite IH, elem_of_fold_add_column. split.
    + intros [[?|?]|(r' & ? & ?)]; [by left| |].
      * right. exists r. split; [by left|done].
      * right. exists r'. split; [by right|done].
    + intros [?|(r' & [->|?]%elem_of_cons & ?)]; [by left; left|by left; right|].
      right. by exists r'.
Qed.

Lemma NoDup_fold_columns (records : list py_dict) cols :
  NoDup cols →
  NoDup (fold_left (fun cols r => fold_left add_column (dict_keys r) cols) records cols).
Proof.
  revert cols. induction records as [|r records IH]; intros cols Hnd; simpl; [done|].
  by apply IH, NoDup_fold_add_column.
Qed.

Lemma elem_of_frame_columns (records : list py_dict) col :
  col ∈ columns (frame_of_records records) ↔ ∃ r, r ∈ records ∧ col ∈ dict_keys r.
Proof.
  destruct records as [|r0 records].
  - simpl. split; [by intros ?%elem_of_nil|]. by intros (r & ?%elem_of_nil & _).
  - change (columns (frame_of_records (r0 :: records)))
      with (frame_columns (r0 :: records)).
    unfold frame_columns. rewrite elem_of_fold_columns.
    split; [intros [?%elem_of_nil|?]; done|by right].
Qed.

Lemma NoDup_frame_columns (records : list py_dict) :
  NoDup (columns (frame_of_records records)).
Proof.
  destruct records as [|r0 records]; [constructor|].
  apply NoDup_fold_columns. constructor.
Qed.

Lemma schema_field_names (df : DataFrame) :
  map field_name (schema (job_config_of df)) = columns df.
Proof.
  unfold job_config_of. simpl. induction (columns df) as [|c cs IH]; simpl; congruence.
Qed.

(** C8. For every batch of records, the columns of the schema handed to the
    load job are exactly the field names that occur in some record of the
    batch, each once, and every column has the type STRING. *)
Theorem schema_is_union_of_fields_all_string (records : list py_dict) :
  let cfg := job_config_of (frame_of_records records) in
  (∀ col, col ∈ map field_name (schema cfg)
          ↔ ∃ r, r ∈ records ∧ col ∈ dict_keys r) ∧
  NoDup (map field_name (schema cfg)) ∧
  Forall (fun f => field_type f = "STRING") (schema cfg).
Proof.
  intros cfg. subst cfg. rewrite schema_field_names. split_and!.
  - apply elem_of_frame_columns.
  - apply NoDup_frame_columns.
  - unfold job_config_of. simpl. apply Forall_forall.
    intros f (col & -> & _)%list_elem_of_fmap. done.
Qed.

(** The batch of the specification, [{a:1,b:2}] and [{a:3,c:4}]. *)
Example schema_of_two_records :
  schema (job_config_of (frame_of_records
            [[("a", JInt 1); ("b", JInt 2)]; [("a", JInt 3); ("c", JInt 4)]]))
  = [mkSchemaField "a" "STRING"; mkSchemaField "b" "STRING"; mkSchemaField "c" "STRING"].
Proof. reflexivity. Qed.

(** ** Folder manager *)

Lemma ensure_marker_self name (store : gmap string string) :
  is_Some (ensure_marker name store !! name).
Proof.
  unfold ensure_marker. case_bool_decide; [done|].
  rewrite lookup_insert_eq. by eexists.
Qed.

Lemma ensure_marker_keeps name k (store : gmap string string) :
  is_Some (store !! k) → is_Some (ensure_marker name store !! k).
Proof.
  intros Hk. unfold ensure_marker. case_bool_decide; [done|].
  destruct (decide (name = k)) as [->|Hne]; [done|].
  by rewrite lookup_insert_ne.
Qed.

Lemma ensure_marker_present name (store : gmap string string) :
  is_Some (store !! name) → ensure_marker name store = store.
Proof. intros Hk. unfold ensure_marker. by rewrite bool_decide_eq_true_2. Qed.

Lemma missing_markers_none (store : gmap string string) :
  is_Some (store !! "Archive/") → is_Some (store !! "Error/") →
  missing_markers store = [].
Proof. intros H1 H2. unfold missing_markers. by rewrite !bool_decide_eq_true_2. Qed.

Lemma create_folders_run (w : World) :
  create_folders w =
  (Ok tt,
   {| blobs := ensure_marker "Error/" (ensure_marker "Archive/" (blobs w));
      tables := tables w;
      trace := trace w ++ missing_markers (blobs w) |}).
Proof.
  destruct w as [b t tr].
  unfold create_folders, missing_markers, ensure_marker, bind, blob_exists,
    blob_upload, ret, log_effect, set_blobs; simpl.
  destruct (bool_decide (is_Some (b !! "Archive/"))) eqn:EA; simpl.
  - destruct (bool_decide (is_Some (b !! "Error/"))) eqn:EE; simpl.
    + by rewrite app_nil_r.
    + done.
  - rewrite lookup_insert_ne by done.
    destruct (bool_decide (is_Some (b !! "Error/"))) eqn:EE; simpl.
    + done.
    + by rewrite <- app_assoc.
Qed.

(** C9. [create_folders] always succeeds and uploads exactly the markers
    that are missing; afterwards both markers are there and nothing is
    missing, so a second invocation changes neither the store nor the trace
    of operations: no marker is created twice and no error is raised.  On a
    bucket that has both markers already the first invocation changes
    nothing either. *)
Theorem create_folders_idempotent (w : World) :
  ∃ w1 : World,
    create_folders w = (Ok tt, w1) ∧
    trace w1 = trace w ++ missing_markers (blobs w) ∧
    is_Some (blobs w1 !! "Archive/") ∧
    is_Some (blobs w1 !! "Error/") ∧
    missing_markers (blobs w1) = [] ∧
    create_folders w1 = (Ok tt, w1) ∧
    (is_Some (blobs w !! "Archive/") → is_Some (blobs w !! "Error/") → w1 = w).
Proof.
  eexists. split; [apply create_folders_run|]. simpl.
  pose proof (ensure_marker_keeps "Error/" "Archive/" _
                (ensure_marker_self "Archive/" (blobs w))) as HA.
  pose proof (ensure_marker_self "Error/" (ensure_marker "Archive/" (blobs w))) as HE.
  split_and!.
  - done.
  - exact HA.
  - exact HE.
  - by apply missing_markers_none.
  - rewrite create_folders_run. simpl.
    rewrite (missing_markers_none _ HA HE), app_nil_r.
    rewrite (ensure_marker_present "Archive/" _ HA).
    by rewrite (ensure_marker_present "Error/" _ HE).
  - intros HA0 HE0. destruct w as [b t tr]; simpl in *.
    rewrite (missing_markers_none _ HA0 HE0), app_nil_r.
    rewrite (ensure_marker_present "Archive/" _ HA0).
    by rewrite (ensure_marker_present "Error/" _ HE0).
Qed.

(** A bucket that has both markers and one file: nothing is uploaded. *)
Lemma create_folders_idempotent_witness :
  create_folders
    (empty_world (<["Archive/" := ""]> (<["Error/" := ""]> (<["evt_orders.jsonl" := "{}"]> ∅))))
  = (Ok tt,
     empty_world (<["Archive/" := ""]> (<["Error/" := ""]> (<["evt_orders.jsonl" := "{}"]> ∅)))).
Proof.
  destruct (create_folders_idempotent
    (empty_world (<["Archive/" := ""]> (<["Error/" := ""]> (<["evt_orders.jsonl" := "{}"]> ∅)))))
    as (w1 & Hrun & _ & _ & _ & _ & _ & Hsame).
  rewrite Hrun. f_equal. apply Hsame; vm_compute; eexists; reflexivity.
Defined.

(** ** Strings and paths *)

Lemma app_cons c (a b : string) : String c a +:+ b = String c (a +:+ b).
Proof. reflexivity. Qed.

Lemma app_empty_l (s : string) : "" +:+ s = s.
Proof. reflexivity. Qed.

Lemma app_empty_r (s : string) : s +:+ "" = s.
Proof. induction s as [|c s IH]; [done|]. by rewrite app_cons, IH. Qed.

Lemma app_assoc_str (a b c : string) : (a +:+ b) +:+ c = a +:+ b +:+ c.
Proof. induction a as [|d a IH]; [done|]. by rewrite !app_cons, IH. Qed.

Lemma contains_app c (a b : string) :
  PyStr.contains c (a +:+ b) = PyStr.contains c a || PyStr.contains c b.
Proof.
  induction a as [|d a IH]; [done|].
  rewrite app_cons. simpl. rewrite IH. by rewrite orb_assoc.
Qed.

Lemma rfind_absent c (s : string) : PyStr.contains c s = false → PyStr.rfind c s = (-1)%Z.
Proof.
  induction s as [|d s IH]; simpl; [done|].
  intros [Hd Hs]%orb_false_iff. by rewrite (IH Hs), Hd.
Qed.

Lemma rfind_last c (a b : string) :
  PyStr.contains c b = false →
  PyStr.rfind c (a +:+ String c b) = Z.of_nat (String.length a).
Proof.
  intros Hb. induction a as [|d a IH].
  - rewrite app_empty_l. simpl. by rewrite (rfind_absent _ _ Hb), Ascii.eqb_refl.
  - rewrite app_cons. simpl PyStr.rfind. rewrite IH.
    destruct (0 <=? Z.of_nat (String.length a))%Z eqn:E; [simpl; lia|].
    apply Z.leb_gt in E. lia.
Qed.

Lemma drop_length_app (a b : string) : PyStr.drop (String.length a) (a +:+ b) = b.
Proof. induction a as [|d a IH]; [by destruct b|]. by rewrite app_cons. Qed.

Lemma take_length_app (a b : string) : PyStr.take (String.length a) (a +:+ b) = a.
Proof.
  induction a as [|d a IH]; [by destruct b|]. rewrite app_cons. simpl. by rewrite IH.
Qed.

Lemma all_chars_contains_other c d (s : string) :
  c ≠ d → PyStr.contains c s = true → PyStr.all_chars d s = false.
Proof.
  intros Hne. induction s as [|e s IH]; simpl; [done|].
  intros [He|Hs]%orb_true_iff.
  - apply Ascii.eqb_eq in He. subst e.
    apply Ascii.eqb_neq in Hne. by rewrite Hne.
  - rewrite (IH Hs). apply andb_false_r.
Qed.

Lemma basename_of_file (base : string) :
  PyStr.contains "/" base = false → OsPath.basename base = base.
Proof. intros Hb. unfold OsPath.basename. by rewrite (rfind_absent _ _ Hb). Qed.

Lemma basename_after_dir (d base : string) :
  PyStr.contains "/" base = false → OsPath.basename (d +:+ "/" +:+ base) = base.
Proof.
  intros Hb. unfold OsPath.basename.
  change ("/" +:+ base) with (String "/" base).
  rewrite (rfind_last _ _ _ Hb).
  replace (Z.to_nat (Z.of_nat (String.length d) + 1)) with (S (String.length d)) by lia.
  change (String "/" base) with ("/" +:+ base).
  rewrite <- app_assoc_str.
  replace (S (String.length d)) with (String.length (d +:+ "/")).
  - apply drop_length_app.
  - clear. induction d as [|c d IH]; [done|]. rewrite app_cons. simpl. by rewrite IH.
Qed.

Lemma splitext_jsonl (stem : string) :
  PyStr.contains "/" stem = false →
  PyStr.all_chars "." stem = false →
  OsPath.splitext (stem +:+ ".jsonl") = (stem, ".jsonl").
Proof.
  intros Hsep Hdots. unfold OsPath.splitext.
  rewrite (rfind_absent "/" (stem +:+ ".jsonl"))
    by (rewrite contains_app, Hsep; reflexivity).
  change (".jsonl") with (String "." "jsonl") at 1 2 3 4.
  rewrite (rfind_last "." stem "jsonl") by reflexivity.
  destruct (-1 <? Z.of_nat (String.length stem))%Z eqn:E;
    [|apply Z.ltb_ge in E; lia].
  unfold PyStr.slice. simpl Z.to_nat. rewrite Nat2Z.id, Nat.sub_0_r. simpl PyStr.drop.
  rewrite take_length_app, Hdots, drop_length_app. done.
Qed.

Lemma split_at_sep sep (a b : string) :
  PyStr.contains sep a = false →
  PyStr.split sep (a +:+ String sep b) = a :: PyStr.split sep b.
Proof.
  intros Ha. induction a as [|c a IH].
  - rewrite app_empty_l. simpl. by rewrite Ascii.eqb_refl.
  - simpl in Ha. apply orb_false_iff in Ha as [Hc Ha].
    rewrite app_cons. simpl. by rewrite Hc, (IH Ha).
Qed.

Lemma split_no_sep sep (a : string) :
  PyStr.contains sep a = false → PyStr.split sep a = [a].
Proof.
  induction a as [|c a IH]; [done|]. simpl.
  intros [Hc Ha]%orb_false_iff. by rewrite Hc, (IH Ha).
Qed.

(** ** Table names *)

(** C6. For a name [<dir/><prefix>_<table>[_<rest>].jsonl], where the prefix
    and the table hold no underscore, the base name is the name without its
    directory, removing the extension leaves [<prefix>_<table>[_<rest>]], and
    the table name the orchestrator derives is its second segment between
    underscores, [<table>]. *)
Theorem table_name_is_second_segment (dir pre tbl suf : string)
  (Hdir : dir = "" ∨ ∃ d, dir = d +:+ "/")
  (Hpre_sep : PyStr.contains "/" pre = false)
  (Hpre : PyStr.contains "_" pre = false)
  (Htbl_sep : PyStr.contains "/" tbl = false)
  (Htbl : PyStr.contains "_" tbl = false)
  (Hsuf_sep : PyStr.contains "/" suf = false)
  (Hsuf : suf = "" ∨ ∃ rest, suf = "_" +:+ rest) :
  let stem := pre +:+ "_" +:+ tbl +:+ suf in
  let name := dir +:+ stem +:+ ".jsonl" in
  OsPath.basename name = stem +:+ ".jsonl" ∧
  OsPath.splitext (OsPath.basename name) = (stem, ".jsonl") ∧
  PyStr.rsplit "_" stem !! 1%nat = Some tbl ∧
  table_name_of name = Ok tbl.
Proof.
  intros stem name.
  assert (Hstem_sep : PyStr.contains "/" stem = false).
  { subst stem. rewrite !contains_app, Hpre_sep, Htbl_sep, Hsuf_sep. reflexivity. }
  assert (Hbase : OsPath.basename name = stem +:+ ".jsonl").
  { assert (Hfile : PyStr.contains "/" (stem +:+ ".jsonl") = false)
      by (rewrite contains_app, Hstem_sep; reflexivity).
    subst name. destruct Hdir as [->|[d ->]].
    - rewrite app_empty_l. by apply basename_of_file.
    - rewrite app_assoc_str. by apply basename_after_dir. }
  assert (Hext : OsPath.splitext (stem +:+ ".jsonl") = (stem, ".jsonl")).
  { apply splitext_jsonl; [done|].
    apply (all_chars_contains_other "_"); [done|].
    subst stem. rewrite !contains_app. simpl. by rewrite orb_true_r. }
  assert (Hparts : PyStr.rsplit "_" stem !! 1%nat = Some tbl).
  { unfold PyStr.rsplit. subst stem.
    change ("_" +:+ tbl +:+ suf) with (String "_" (tbl +:+ suf)).
    rewrite (split_at_sep _ _ _ Hpre). simpl.
    destruct Hsuf as [->|[rest ->]].
    - by rewrite app_empty_r, (split_no_sep _ _ Htbl).
    - change ("_" +:+ rest) with (String "_" rest).
      by rewrite (split_at_sep _ _ _ Htbl). }
  split_and!; [done|by rewrite Hbase|done|].
  unfold table_name_of. rewrite Hbase, Hext. cbn [fst]. by rewrite Hparts.
Qed.

(** The file of the specification's scenario, [evt_orders.jsonl]. *)
Lemma table_name_is_second_segment_witness :
  table_name_of "evt_orders.jsonl" = Ok "orders".
Proof.
  apply (table_name_is_second_segment "" "evt" "orders" "");
    first [reflexivity | by left].
Defined.

Example table_name_with_directory_and_suffix :
  table_name_of "landing/2024/evt_orders_0001.jsonl" = Ok "orders".
Proof. reflexivity. Qed.

(** ** Record transformer *)

Section TransformerProofs.

Context {svc : Services}.

Lemma rows_frame_of_records (records : list py_dict) :
  rows (frame_of_records records) = records.
Proof. by destruct records. Qed.

Lemma transform_lines_app (a b : list string) (records : list py_dict) :
  transform_lines (a ++ b) records =
  obind (transform_lines a records) (fun records' => transform_lines b records').
Proof.
  revert records. induction a as [|line a IH]; intros records; simpl; [done|].
  destruct (transform_line records line) as [records'|e]; simpl; [apply IH|done].
Qed.

(** A change event yields its record. *)
Lemma line_record_event (line : string) (record : py_dict) :
  event_record line = Some record → line_record line = Ok (Some record).
Proof.
  unfold event_record, line_object, line_record.
  destruct (blank line); [done|].
  destruct (json_loads line) as [[| | | | | |members]|]; try done.
  simpl. unfold dict_mem.
  destruct (dict_get "payload" (dict_of_pairs members))
    as [[| | | | | |payload]|] eqn:Hp; try done.
  destruct (dict_get "source_metadata" (dict_of_pairs members))
    as [[| | | | | |source_metadata]|] eqn:Hm; try done.
  destruct (dict_get "source_timestamp" (dict_of_pairs members))
    as [source_timestamp|] eqn:Ht; try done.
  simpl.
  destruct (dict_get "change_type" (dict_of_pairs source_metadata))
    as [change_type|] eqn:Hc; [|done].
  simpl. by intros [= <-].
Qed.

Lemma event_record_not_blank (line : string) :
  is_Some (event_record line) → blank line = false.
Proof.
  unfold event_record. destruct (blank line); [|done].
  by intros [? [=]].
Qed.

Lemma transform_line_event (records : list py_dict) line record :
  event_record line = Some record →
  transform_line records line = Ok (records ++ [record]).
Proof.
  intros Hev. unfold transform_line.
  pose proof (event_record_not_blank line (mk_is_Some _ _ Hev)) as Hb.
  unfold blank in Hb. apply negb_false_iff in Hb. rewrite Hb.
  by rewrite (line_record_event _ _ Hev).
Qed.

Lemma transform_line_skippable (records : list py_dict) line :
  skippable line = true → transform_line records line = Ok records.
Proof.
  unfold skippable, blank, transform_line,
    line_record.
  destruct (PyStr.truthy (PyStr.strip line)); simpl; [|done].
  destruct (json_loads line) as [[| | | | | |members]|[]]; try done.
  simpl. intros ->%negb_true_iff. done.
Qed.

Lemma skippable_no_record (line : string) :
  skippable line = true → event_record line = None.
Proof.
  unfold skippable, event_record, line_object.
  destruct (blank line); simpl; [done|].
  destruct (json_loads line) as [[| | | | | |members]|]; try done.
  unfold dict_mem.
  by destruct (dict_get "payload" (dict_of_pairs members)).
Qed.

Lemma transform_lines_tolerant (lines : list string) (records : list py_dict) :
  Forall (fun line => is_Some (event_record line) ∨ skippable line = true) lines →
  transform_lines lines records = Ok (records ++ omap event_record lines).
Proof.
  intros Hall. revert records.
  induction Hall as [|line lines [[record Hev]|Hskip] _ IH]; intros records; simpl.
  - by rewrite app_nil_r.
  - rewrite (transform_line_event _ _ _ Hev), Hev. simpl.
    rewrite IH. by rewrite <- app_assoc.
  - rewrite (transform_line_skippable _ _ Hskip), (skippable_no_record _ Hskip).
    simpl. apply IH.
Qed.

Lemma length_omap_filter {A B} (f : A → option B) (l : list A) :
  length (omap f l) = length (filter (fun x => is_Some (f x)) l).
Proof.
  induction l as [|x l IH]; [done|]. simpl.
  rewrite filter_cons. case_decide as Hx.
  - destruct Hx as [y Hy]. rewrite Hy. simpl. f_equal. exact IH.
  - destruct (f x) eqn:E; [|exact IH]. exfalso. apply Hx. by eexists.
Qed.

(** C4 (amended). When every line of the content is a change event (an
    object with [source_metadata.change_type], [source_timestamp] and an
    object as [payload]) or is empty, makes [json.loads] raise
    [JSONDecodeError] or is an object without [payload], the transformer
    raises nothing and returns the records of the change events, one for
    each, in the order of the lines. *)
Theorem partial_parse_tolerance (content : string)
  (Hlines : Forall (fun line => is_Some (event_record line) ∨ skippable line = true)
                   (PyStr.splitlines content)) :
  ∃ df,
    load_json_to_dataframe content = Ok df ∧
    rows df = omap event_record (PyStr.splitlines content) ∧
    length (rows df) =
      length (filter (fun line => is_Some (event_record line))
                     (PyStr.splitlines content)).
Proof.
  eexists. unfold load_json_to_dataframe.
  rewrite (transform_lines_tolerant _ _ Hlines). simpl.
  split; [done|]. rewrite rows_frame_of_records.
  split; [done|]. apply length_omap_filter.
Qed.

(** C5 (amended). A line that is not blank and that [json.loads] decodes
    to an object with an object as [payload], an object as [source_metadata]
    that has [change_type], and a [source_timestamp], yields a record, which
    the loop appends; the record is the map that binds [change_type] to the
    line's [source_metadata.change_type] and [source_timestamp] to the
    line's [source_timestamp], with the entries of [payload] merged in last:
    a key of the payload has the payload's value, also when it is
    [change_type] or [source_timestamp], and the two extracted fields are
    read otherwise. *)
Theorem record_merges_payload_last
  (line : string) (members source_metadata payload : list (string * json))
  (change_type source_timestamp : json) (records : list py_dict)
  (Hblank : blank line = false)
  (Hobj : json_loads line = Ok (JObj members))
  (Hpayload : dict_get "payload" (dict_of_pairs members) = Some (JObj payload))
  (Hmeta : dict_get "source_metadata" (dict_of_pairs members)
           = Some (JObj source_metadata))
  (Hchange : dict_get "change_type" (dict_of_pairs source_metadata)
             = Some change_type)
  (Hstamp : dict_get "source_timestamp" (dict_of_pairs members)
            = Some source_timestamp) :
  ∃ record,
    line_record line = Ok (Some record) ∧
    transform_line records line = Ok (records ++ [record]) ∧
    record = dict_update [("change_type", change_type);
                          ("source_timestamp", source_timestamp)]
                         (dict_of_pairs payload) ∧
    ∀ k, dict_get k record =
         match dict_get k (dict_of_pairs payload) with
         | Some v => Some v
         | None =>
             if String.eqb k "change_type" then Some change_type
             else if String.eqb k "source_timestamp" then Some source_timestamp
             else None
         end.
Proof.
  assert (Hevent : event_record line
                   = Some (dict_update [("change_type", change_type);
                                        ("source_timestamp", source_timestamp)]
                                       (dict_of_pairs payload))).
  { unfold event_record, line_object.
    by rewrite Hblank, Hobj, Hpayload, Hmeta, Hstamp, Hchange. }
  eexists. split_and!.
  - by apply line_record_event.
  - by apply transform_line_event.
  - done.
  - intros k. rewrite dict_get_update by apply dict_of_pairs_NoDup.
    destruct (dict_get k (dict_of_pairs payload)); [done|].
    rewrite dict_get_two.
    by rewrite (String.eqb_sym "change_type"), (String.eqb_sym "source_timestamp").
Qed.

(** C2 (amended). A line that is not blank and decodes to an object with a
    [payload] key but without [source_metadata], or whose
    [source_metadata] is an object without [change_type], raises
    [KeyError]; the error is not caught for the line: it leaves the
    transformer, which returns no batch, whatever the lines after it
    are. *)
Theorem missing_change_type_raises (content : string)
  (before after : list string) (line : string) members (records : list py_dict)
  (Hsplit : PyStr.splitlines content = before ++ line :: after)
  (Hbefore : transform_lines before [] = Ok records)
  (Hblank : blank line = false)
  (Hobj : json_loads line = Ok (JObj members))
  (Hpayload : dict_mem "payload" (dict_of_pairs members) = true)
  (Hmissing :
     dict_get "source_metadata" (dict_of_pairs members) = None ∨
     ∃ source_metadata,
       dict_get "source_metadata" (dict_of_pairs members) = Some (JObj source_metadata) ∧
       dict_get "change_type" (dict_of_pairs source_metadata) = None) :
  ∃ key,
    (key = "source_metadata" ∨ key = "change_type") ∧
    line_record line = Raise (KeyError key) ∧
    load_json_to_dataframe content = Raise (KeyError key).
Proof.
  assert (Hline : ∃ key, (key = "source_metadata" ∨ key = "change_type") ∧
                         line_record line = Raise (KeyError key)).
  { unfold line_record. rewrite Hobj. simpl. rewrite Hpayload. simpl.
    destruct Hmissing as [Hm|(source_metadata & Hm & Hc)]; rewrite Hm; simpl.
    - exists "source_metadata". by split; [left|].
    - rewrite Hc. exists "change_type". by split; [right|]. }
  destruct Hline as (key & Hkey & Hline). exists key. split_and!; [done..|].
  unfold load_json_to_dataframe.
  rewrite Hsplit, transform_lines_app, Hbefore. simpl.
  unfold transform_line.
  unfold blank in Hblank. apply negb_false_iff in Hblank.
  by rewrite Hblank, Hline.
Qed.

End TransformerProofs.

(** The records of [noisy_content]: two events among five lines. *)
Lemma partial_parse_tolerance_witness :
  ∃ df,
    load_json_to_dataframe (svc := reference_services) noisy_content = Ok df ∧
    rows df = [ [("change_type", JStr "INSERT"); ("source_timestamp", JStr "t1");
                 ("id", JInt 1); ("name", JStr "a")];
                [("change_type", JStr "DELETE"); ("source_timestamp", JStr "t2");
                 ("id", JInt 1)] ].
Proof.
  destruct (partial_parse_tolerance (svc := reference_services) noisy_content)
    as (df & Hdf & Hrows & _).
  - let l := eval vm_compute in (PyStr.splitlines noisy_content) in
    change (PyStr.splitlines noisy_content) with l.
    repeat first
      [ apply Forall_nil_2
      | apply Forall_cons_2;
        [ cbv beta;
          first [ left; eexists; vm_compute; reflexivity
                | right; vm_compute; reflexivity ] | ] ].
  - exists df. split; [exact Hdf|]. rewrite Hrows. vm_compute. reflexivity.
Defined.

(** C4 (as stated) fails: a single line that is an object with a [payload]
    key is a qualifying line, yet the transformer raises [KeyError] on it
    and returns no batch. *)
Lemma partial_parse_counterexample :
  Forall (fun line => qualifying (svc := reference_services) line = true
                      ∨ skippable (svc := reference_services) line = true)
         (PyStr.splitlines event_without_metadata) ∧
  length (filter (fun line => qualifying (svc := reference_services) line = true)
                 (PyStr.splitlines event_without_metadata)) = 1%nat ∧
  load_json_to_dataframe (svc := reference_services) event_without_metadata
  = Raise (KeyError "source_metadata").
Proof.
  split_and!.
  - let l := eval vm_compute in (PyStr.splitlines event_without_metadata) in
    change (PyStr.splitlines event_without_metadata) with l.
    apply Forall_cons_2; [cbv beta; left; vm_compute; reflexivity|apply Forall_nil_2].
  - vm_compute. reflexivity.
  - vm_compute. reflexivity.
Qed.

(** The record of [colliding_event]: the payload's [change_type] wins. *)
Lemma record_merges_payload_last_witness :
  line_record (svc := reference_services) colliding_event
  = Ok (Some [("change_type", JStr "shadow"); ("source_timestamp", JStr "t3");
              ("id", JInt 7)]) ∧
  transform_line (svc := reference_services) [] colliding_event
  = Ok [[("change_type", JStr "shadow"); ("source_timestamp", JStr "t3");
         ("id", JInt 7)]].
Proof.
  destruct (record_merges_payload_last (svc := reference_services) colliding_event
              [("source_metadata", JObj [("change_type", JStr "UPDATE")]);
               ("source_timestamp", JStr "t3");
               ("payload", JObj [("id", JInt 7); ("change_type", JStr "shadow")])]
              [("change_type", JStr "UPDATE")]
              [("id", JInt 7); ("change_type", JStr "shadow")]
              (JStr "UPDATE") (JStr "t3") [])
    as (record & Hline & Hloop & Hrecord & _).
  - vm_compute. reflexivity.
  - vm_compute. reflexivity.
  - vm_compute. reflexivity.
  - vm_compute. reflexivity.
  - vm_compute. reflexivity.
  - vm_compute. reflexivity.
  - rewrite Hline, Hloop, Hrecord. split; vm_compute; reflexivity.
Defined.

(** C5 (as stated) fails: a line that is an object with a [payload] key and
    no [source_metadata] is a qualifying line, yet it yields no record: the
    body of the loop raises [KeyError] on it. *)
Lemma payload_alone_yields_no_record_counterexample :
  qualifying (svc := reference_services) event_without_metadata = true ∧
  line_record (svc := reference_services) event_without_metadata
  = Raise (KeyError "source_metadata") ∧
  transform_line (svc := reference_services) [] event_without_metadata
  = Raise (KeyError "source_metadata").
Proof. split_and!; vm_compute; reflexivity. Qed.

(** C2 (as stated) fails: the first line has a [payload] and no
    [source_metadata], the second line is a change event; the first line is
    not skipped and the second is not transformed: the transformer raises. *)
Lemma missing_change_type_counterexample :
  qualifying (svc := reference_services) event_without_metadata = true ∧
  is_Some (event_record (svc := reference_services) insert_event) ∧
  load_json_to_dataframe (svc := reference_services)
    (event_without_metadata +:+ LF +:+ insert_event)
  = Raise (KeyError "source_metadata") ∧
  ∃ df, load_json_to_dataframe (svc := reference_services) insert_event = Ok df
        ∧ length (rows df) = 1%nat.
Proof.
  split_and!.
  - vm_compute. reflexivity.
  - eexists. vm_compute. reflexivity.
  - vm_compute. reflexivity.
  - eexists. split; vm_compute; reflexivity.
Qed.

(** The same two lines, through the amended statement. *)
Lemma missing_change_type_raises_witness :
  load_json_to_dataframe (svc := reference_services)
    (event_without_metadata +:+ LF +:+ insert_event)
  = Raise (KeyError "source_metadata").
Proof.
  destruct (missing_change_type_raises (svc := reference_services)
              (event_without_metadata +:+ LF +:+ insert_event)
              [] [insert_event] event_without_metadata
              [("source_timestamp", JStr "t4"); ("payload", JObj [("id", JInt 2)])] [])
    as (key & Hkey & Hline & Hfile).
  - vm_compute. reflexivity.
  - reflexivity.
  - vm_compute. reflexivity.
  - vm_compute. reflexivity.
  - vm_compute. reflexivity.
  - left. vm_compute. reflexivity.
  - rewrite Hfile. f_equal.
    assert (Hconcrete : line_record (svc := reference_services) event_without_metadata
                        = Raise (KeyError "source_metadata"))
      by (vm_compute; reflexivity).
    rewrite Hconcrete in Hline. congruence.
Defined.

(** ** Computations *)

Lemma bind_ok {A B} (m : M A) (k : A → M B) w a w' :
  m w = (Ok a, w') → bind m k w = k a w'.
Proof. intros Hm. unfold bind. by rewrite Hm. Qed.

Lemma bind_raise {A B} (m : M A) (k : A → M B) w e w' :
  m w = (Raise e, w') → bind m k w = (Raise e, w').
Proof. intros Hm. unfold bind. by rewrite Hm. Qed.

Lemma try_except_ok {A} (m : M A) handler w a w' :
  m w = (Ok a, w') → try_except m handler w = (Ok a, w').
Proof. intros Hm. unfold try_except. by rewrite Hm. Qed.

Lemma try_except_raise {A} (m : M A) handler w e w' :
  m w = (Raise e, w') → try_except m handler w = handler e w'.
Proof. intros Hm. unfold try_except. by rewrite Hm. Qed.

(** ** Relocation *)

Lemma length_app_str (a b : string) :
  String.length (a +:+ b) = (String.length a + String.length b)%nat.
Proof. induction a as [|c a IH]; [done|]. rewrite app_cons. simpl. by rewrite IH. Qed.

Lemma destination_differs (folder name : string) : folder +:+ "/" +:+ name ≠ name.
Proof.
  intros Heq. apply (f_equal String.length) in Heq.
  rewrite !length_app_str in Heq. simpl in Heq. lia.
Qed.

Lemma move_blob_to_folder_existing (name folder data : string) (w : World) :
  blobs w !! name = Some data →
  move_blob_to_folder name folder w = (Ok tt, relocated folder name data w).
Proof.
  intros Hname. destruct w as [b t tr]; simpl in Hname.
  unfold move_blob_to_folder, try_except, bind, blob_download, blob_upload,
    blob_delete, relocated, log_effect, set_blobs; simpl.
  rewrite Hname; simpl.
  rewrite lookup_insert_ne by apply destination_differs.
  rewrite Hname. by rewrite <- !app_assoc.
Qed.

Lemma move_blob_to_folder_missing (name folder : string) (w : World) :
  blobs w !! name = None → move_blob_to_folder name folder w = (Ok tt, w).
Proof.
  intros Hname.
  unfold move_blob_to_folder, try_except, bind, blob_download.
  by rewrite Hname.
Qed.

Lemma relocated_destination folder name data w :
  blobs (relocated folder name data w) !! (folder +:+ "/" +:+ name) = Some data.
Proof.
  unfold relocated; simpl.
  rewrite lookup_delete_ne by (intros Heq; symmetry in Heq; by apply destination_differs in Heq).
  apply lookup_insert_eq.
Qed.

Lemma relocated_source folder name data w :
  blobs (relocated folder name data w) !! name = None.
Proof. unfold relocated; simpl. apply lookup_delete_eq. Qed.

Lemma relocated_other folder name data w other :
  other ≠ name → other ≠ folder +:+ "/" +:+ name →
  blobs (relocated folder name data w) !! other = blobs w !! other.
Proof.
  intros H1 H2. unfold relocated; simpl.
  rewrite lookup_delete_ne by done. by rewrite lookup_insert_ne.
Qed.

(** ** Per-file processing and the run *)

Section OrchestratorProofs.

Context {svc : Services}.


(** What [process_blob] does to a blob that is there. *)
Lemma process_blob_run (name table content : string) (w : World) :
  blobs w !! name = Some content →
  process_blob name table w =
  let w1 := log_effect (EvDownload name) w in
  if blank content then (Ok tt, relocated "Error" name content w1)
  else
    match load_json_to_dataframe content with
    | Raise e => (Raise e, w1)
    | Ok df =>
        let w2 := log_effect (EvLoadJob table (job_config_of df) df) w1 in
        match load_failure (tables w) table (job_config_of df) df with
        | Some e => (Raise e, w2)
        | None =>
            (Ok tt,
             set_tables (<[table := table_rows w table ++ rows df]> (tables w)) w2)
        end
    end.
Proof.
  intros Hname. unfold process_blob.
  rewrite (bind_ok _ _ w content (log_effect (EvDownload name) w))
    by (unfold blob_download; by rewrite Hname).
  unfold blank. destruct (PyStr.truthy (PyStr.strip content)); simpl.
  - unfold bind, lift.
    destruct (load_json_to_dataframe content) as [df|e]; [|done].
    unfold create_or_append_table, load_table_from_dataframe. simpl.
    by destruct (load_failure (tables w) table (job_config_of df) df).
  - by apply move_blob_to_folder_existing.
Qed.

Lemma process_blob_raise_keeps_store (name table content : string) (w w' : World) e :
  blobs w !! name = Some content →
  process_blob name table w = (Raise e, w') →
  blobs w' = blobs w ∧ tables w' = tables w.
Proof.
  intros Hname. rewrite (process_blob_run _ _ _ _ Hname). simpl.
  destruct (blank content); [done|].
  destruct (load_json_to_dataframe content) as [df|e']; [|by intros [= _ <-]].
  destruct (load_failure (tables w) table (job_config_of df) df); [|done].
  by intros [= _ <-].
Qed.

(** The handler of [process_blob_with_error_handling]: the file goes to
    the Error folder and the exception is raised again. *)
Lemma process_blob_with_error_handling_raise
    (name table content : string) (w w' : World) e :
  blobs w !! name = Some content →
  process_blob name table w = (Raise e, w') →
  process_blob_with_error_handling name table w =
  (Raise e, relocated "Error" name content w').
Proof.
  intros Hname Hraise.
  destruct (process_blob_raise_keeps_store _ _ _ _ _ _ Hname Hraise) as [Hb _].
  unfold process_blob_with_error_handling.
  rewrite (try_except_raise _ _ w e w') by (by apply bind_raise).
  rewrite (bind_ok _ _ w' tt (relocated "Error" name content w')); [done|].
  apply move_blob_to_folder_existing. by rewrite Hb.
Qed.

Lemma ingest_blob_candidate (name table : string) (w : World) :
  in_outcome_zone name = false →
  PyStr.endswith name ".jsonl" = true →
  table_name_of name = Ok table →
  ingest_blob name w = process_blob_with_error_handling name table w.
Proof.
  unfold in_outcome_zone, ingest_blob. intros -> -> Htable. simpl.
  unfold bind, lift. by rewrite Htable.
Qed.

Lemma ingest_loop_app (a b : list string) (w : World) :
  ingest_loop (a ++ b) w =
  match ingest_loop a w with
  | (Ok _, w') => ingest_loop b w'
  | (Raise e, w') => (Raise e, w')
  end.
Proof.
  revert w. induction a as [|name a IH]; intros w; simpl; [done|].
  unfold bind. destruct (ingest_blob name w) as [[[]|e] w']; [apply IH|done].
Qed.

(** A run: the folders, the listing, the loop, the response. *)
Lemma ingest_json_to_bigquery_run (w : World) :
  ingest_json_to_bigquery w =
  let w1 := (create_folders w).2 in
  match ingest_loop (list_blobs (blobs w1)) w1 with
  | (Ok _, w') => (Message success_message, w')
  | (Raise e, w') => (ErrorResponse e, w')
  end.
Proof.
  unfold ingest_json_to_bigquery. unfold bind at 1.
  rewrite create_folders_run. simpl. unfold bind at 1. done.
Qed.

(** A run whose loop stops at one file of the listing. *)
Lemma run_stops_at (w w_before w_end : World) (before after : list string) name e :
  list_blobs (blobs (create_folders w).2) = before ++ name :: after →
  ingest_loop before (create_folders w).2 = (Ok tt, w_before) →
  ingest_blob name w_before = (Raise e, w_end) →
  ingest_json_to_bigquery w = (ErrorResponse e, w_end).
Proof.
  intros Hlist Hbefore Hblob.
  rewrite ingest_json_to_bigquery_run. cbv zeta.
  rewrite Hlist, ingest_loop_app, Hbefore. simpl.
  by rewrite (bind_raise _ _ _ _ _ Hblob).
Qed.

(** C1 (amended). When the processing chain of a candidate file raises,
    the file is moved to the Error folder and the exception is raised
    again: the loop stops there, the files after it in the listing are not
    processed (every other blob is as it was before the file), and the
    response of the run is the error, not the success message. *)
Theorem failed_file_stops_run
  (w w_before w_failed : World) (before after : list string)
  (name table content : string) (e : exn)
  (Hlist : list_blobs (blobs (create_folders w).2) = before ++ name :: after)
  (Hbefore : ingest_loop before (create_folders w).2 = (Ok tt, w_before))
  (Hzone : in_outcome_zone name = false)
  (Hext : PyStr.endswith name ".jsonl" = true)
  (Htable : table_name_of name = Ok table)
  (Hthere : blobs w_before !! name = Some content)
  (Hraise : process_blob name table w_before = (Raise e, w_failed)) :
  ∃ w_end,
    ingest_json_to_bigquery w = (ErrorResponse e, w_end) ∧
    w_end = relocated "Error" name content w_failed ∧
    blobs w_end !! ("Error" +:+ "/" +:+ name) = Some content ∧
    blobs w_end !! name = None ∧
    (∀ other, other ≠ name → other ≠ "Error" +:+ "/" +:+ name →
              blobs w_end !! other = blobs w_before !! other).
Proof.
  exists (relocated "Error" name content w_failed).
  destruct (process_blob_raise_keeps_store _ _ _ _ _ _ Hthere Hraise) as [Hb _].
  split_and!.
  - apply (run_stops_at w w_before _ before after name e Hlist Hbefore).
    rewrite (ingest_blob_candidate name table) by done.
    by apply process_blob_with_error_handling_raise.
  - done.
  - apply relocated_destination.
  - apply relocated_source.
  - intros other H1 H2. rewrite relocated_other by done. by rewrite Hb.
Qed.


(** C7. A listed name under [Error/] or [Archive/] is skipped: the world,
    the trace of operations included, is as before, and the loop goes on
    with the next name.  A name outside the two folders that does not end
    in [.jsonl] is moved to the Error folder, and the loop goes on with
    the next name: the blob is downloaded, uploaded under [Error/] and
    deleted, no table changes and no load job is issued; the result does
    not depend on the decoder or on the warehouse. *)
Theorem zone_files_skipped_other_files_rejected
  (name : string) (rest : list string) (w : World) :
  (in_outcome_zone name = true →
     ingest_blob name w = (Ok tt, w) ∧
     ingest_loop (name :: rest) w = ingest_loop rest w) ∧
  (in_outcome_zone name = false → PyStr.endswith name ".jsonl" = false →
     ∀ content, blobs w !! name = Some content →
       ingest_blob name w = (Ok tt, relocated "Error" name content w) ∧
       ingest_loop (name :: rest) w
         = ingest_loop rest (relocated "Error" name content w) ∧
       tables (relocated "Error" name content w) = tables w ∧
       filter (fun ev => is_load ev = true)
              (trace (relocated "Error" name content w))
         = filter (fun ev => is_load ev = true) (trace w)).
Proof.
  split.
  - intros Hzone.
    assert (Hblob : ingest_blob name w = (Ok tt, w)).
    { unfold ingest_blob. unfold in_outcome_zone in Hzone. by rewrite Hzone. }
    split; [done|]. simpl. by rewrite (bind_ok _ _ _ _ _ Hblob).
  - intros Hzone Hext content Hthere.
    assert (Hblob : ingest_blob name w = (Ok tt, relocated "Error" name content w)).
    { unfold ingest_blob. unfold in_outcome_zone in Hzone. rewrite Hzone, Hext.
      simpl. by apply move_blob_to_folder_existing. }
    split_and!; [done| |done|].
    + simpl. by rewrite (bind_ok _ _ _ _ _ Hblob).
    + simpl. rewrite filter_app. simpl.
      rewrite !filter_cons_False by (simpl; congruence).
      rewrite filter_nil. by rewrite app_nil_r.
Qed.

(** C10. A candidate name whose base name without extension holds no
    underscore makes the table-name extraction raise [IndexError] outside
    the per-file handler: the world is the one the files before it left
    (the file is not moved, no later file is processed) and the response
    of the run is the error. *)
Theorem name_without_underscore_aborts_run
  (w w_before : World) (before after : list string) (name : string)
  (Hlist : list_blobs (blobs (create_folders w).2) = before ++ name :: after)
  (Hbefore : ingest_loop before (create_folders w).2 = (Ok tt, w_before))
  (Hzone : in_outcome_zone name = false)
  (Hext : PyStr.endswith name ".jsonl" = true)
  (Hstem : PyStr.contains "_" (OsPath.splitext (OsPath.basename name)).1 = false) :
  table_name_of name = Raise IndexError ∧
  ingest_blob name w_before = (Raise IndexError, w_before) ∧
  ingest_json_to_bigquery w = (ErrorResponse IndexError, w_before).
Proof.
  assert (Htable : table_name_of name = Raise IndexError).
  { unfold table_name_of, PyStr.rsplit. by rewrite (split_no_sep _ _ Hstem). }
  assert (Hblob : ingest_blob name w_before = (Raise IndexError, w_before)).
  { unfold ingest_blob. unfold in_outcome_zone in Hzone. rewrite Hzone, Hext.
    simpl. unfold bind, lift. by rewrite Htable. }
  split_and!; [done..|].
  by apply (run_stops_at w w_before _ before after name).
Qed.

End OrchestratorProofs.

(** ** The theorems at concrete buckets *)

(** C1 (as stated) fails: the load of the second of three well-formed files
    is rejected; the first file is archived and the second goes to the Error
    folder, but the third is not processed (it stays where it was) and the
    response is the error. *)
Lemma failure_isolation_counterexample :
  (ingest_json_to_bigquery (svc := failing_services) three_files).1
    = ErrorResponse (LoadJobError "injected load error") ∧
  blobs (ingest_json_to_bigquery (svc := failing_services) three_files).2
    !! "Archive/a_first.jsonl" = Some insert_event ∧
  blobs (ingest_json_to_bigquery (svc := failing_services) three_files).2
    !! "Error/b_bad.jsonl" = Some insert_event ∧
  blobs (ingest_json_to_bigquery (svc := failing_services) three_files).2
    !! "c_last.jsonl" = Some delete_event ∧
  blobs (ingest_json_to_bigquery (svc := failing_services) three_files).2
    !! "Archive/c_last.jsonl" = None ∧
  (ingest_json_to_bigquery (svc := reference_services) three_files).1
    = Message success_message.
Proof. split_and!; vm_compute; reflexivity. Qed.

(** The same run, through the amended statement. *)
Lemma failed_file_stops_run_witness :
  (ingest_json_to_bigquery (svc := failing_services) three_files).1
    = ErrorResponse (LoadJobError "injected load error").
Proof.
  destruct (failed_file_stops_run (svc := failing_services) three_files
               (ingest_loop (svc := failing_services)
                  ["Archive/"; "Error/"; "a_first.jsonl"]
                  (create_folders three_files).2).2
               (process_blob (svc := failing_services) "b_bad.jsonl" "bad"
                  (ingest_loop (svc := failing_services)
                     ["Archive/"; "Error/"; "a_first.jsonl"]
                     (create_folders three_files).2).2).2
               ["Archive/"; "Error/"; "a_first.jsonl"] ["c_last.jsonl"]
               "b_bad.jsonl" "bad" insert_event
               (LoadJobError "injected load error"))
    as (w_end & Hrun & _).
  - vm_compute. reflexivity.
  - vm_compute. reflexivity.
  - vm_compute. reflexivity.
  - vm_compute. reflexivity.
  - vm_compute. reflexivity.
  - vm_compute. reflexivity.
  - vm_compute. reflexivity.
  - by rewrite Hrun.
Defined.



(** An archived file is skipped and a text file goes to the Error folder. *)
Lemma zone_files_skipped_other_files_rejected_witness :
  ingest_blob (svc := reference_services) "Archive/evt_old.jsonl" mixed_files
    = (Ok tt, mixed_files) ∧
  ingest_blob (svc := reference_services) "notes.txt" mixed_files
    = (Ok tt, relocated "Error" "notes.txt" "hello" mixed_files).
Proof.
  split.
  - apply (zone_files_skipped_other_files_rejected (svc := reference_services)
             "Archive/evt_old.jsonl" [] mixed_files).
    vm_compute. reflexivity.
  - apply (zone_files_skipped_other_files_rejected (svc := reference_services)
             "notes.txt" [] mixed_files);
      vm_compute; reflexivity.
Defined.

(** [orders.jsonl] has no underscore: the run answers with the error, and the
    store is the one [create_folders] left. *)
Lemma name_without_underscore_aborts_run_witness :
  ingest_json_to_bigquery (svc := reference_services) unnamed_table
    = (ErrorResponse IndexError,
       (create_folders unnamed_table).2).
Proof.
  apply (name_without_underscore_aborts_run (svc := reference_services)
           unnamed_table (create_folders unnamed_table).2
           ["Archive/"; "Error/"] ["z_later.jsonl"] "orders.jsonl");
    vm_compute; reflexivity.
Defined.

(** The scenario of the specification: two records are appended to the
    table [orders] and the file ends at [Archive/evt_orders.jsonl]. *)
Example scenario_two_events_archived :
  (ingest_json_to_bigquery (svc := reference_services) scenario_bucket).1
    = Message success_message ∧
  table_rows (ingest_json_to_bigquery (svc := reference_services) scenario_bucket).2
             "orders"
    = [ [("change_type", JStr "INSERT"); ("source_timestamp", JStr "t1");
         ("id", JInt 1); ("name", JStr "a")];
        [("change_type", JStr "DELETE"); ("source_timestamp", JStr "t2");
         ("id", JInt 1)] ] ∧
  blobs (ingest_json_to_bigquery (svc := reference_services) scenario_bucket).2
    !! "Archive/evt_orders.jsonl"
    = Some (insert_event +:+ LF +:+ LF +:+ delete_event +:+ LF) ∧
  blobs (ingest_json_to_bigquery (svc := reference_services) scenario_bucket).2
    !! "evt_orders.jsonl" = None.
Proof. split_and!; vm_compute; reflexivity. Qed.

(* ===================================================================== *)
(** * Further properties *)
(* ===================================================================== *)

(** ** Relocation and folders *)


Lemma create_folders_blobs (w : World) :
  blobs (create_folders w).2
  = ensure_marker "Error/" (ensure_marker "Archive/" (blobs w)).
Proof. by rewrite create_folders_run. Qed.

Lemma ensure_marker_lookup marker (store : gmap string string) name :
  ensure_marker marker store !! name =
  match store !! name with
  | Some data => Some data
  | None => if decide (marker = name) then Some "" else None
  end.
Proof.
  unfold ensure_marker. case_bool_decide as Hm.
  - destruct (store !! name) eqn:E; [done|].
    case_decide as Heq; [|done]. subst. rewrite E in Hm. by destruct Hm.
  - destruct (decide (marker = name)) as [->|Hne].
    + rewrite lookup_insert_eq. destruct (store !! name) eqn:E; [|done].
      exfalso. apply Hm. by eexists.
    + rewrite lookup_insert_ne by done. by destruct (store !! name).
Qed.

(** X2. [create_folders] changes no table, keeps every blob with its
    content (a marker that is there is not written again) and adds nothing
    but the two empty markers. *)
Theorem create_folders_keeps_every_blob (w : World) :
  tables (create_folders w).2 = tables w ∧
  (∀ name data, blobs w !! name = Some data →
                blobs (create_folders w).2 !! name = Some data) ∧
  (∀ name data, blobs (create_folders w).2 !! name = Some data →
                blobs w !! name = Some data
                ∨ ((name = "Archive/" ∨ name = "Error/") ∧ data = "")).
Proof.
  split; [by rewrite create_folders_run|].
  rewrite create_folders_blobs. split.
  - intros name data Hname. rewrite !ensure_marker_lookup. by rewrite Hname.
  - intros name data. rewrite !ensure_marker_lookup.
    destruct (blobs w !! name) as [d|]; [by left|].
    repeat case_decide; intros [= <-]; right; split; auto.
Qed.

(** ** Table names, both ways *)

Lemma split_two_segments sep (s : string) :
  PyStr.contains sep s = true →
  ∃ first second others, PyStr.split sep s = first :: second :: others.
Proof.
  induction s as [|c s IH]; simpl; [done|].
  destruct (Ascii.eqb c sep) eqn:Hc; simpl.
  - intros _. destruct s as [|d s']; [by eexists "", "", []|].
    destruct (PyStr.split sep (String d s')) as [|seg segs] eqn:Hs.
    + exfalso. simpl in Hs. destruct (Ascii.eqb d sep); [done|].
      by destruct (PyStr.split sep s').
    + by eexists "", seg, segs.
  - intros Hs. destruct (IH Hs) as (first & second & others & ->).
    by eexists (String c first), second, others.
Qed.

Lemma split_segments_without sep c (s : string) :
  PyStr.contains c s = false →
  Forall (fun seg => PyStr.contains c seg = false) (PyStr.split sep s).
Proof.
  induction s as [|d s IH]; simpl.
  - intros _. by repeat constructor.
  - intros [Hd Hs]%orb_false_iff. specialize (IH Hs).
    destruct (Ascii.eqb d sep).
    + by constructor.
    + destruct (PyStr.split sep s) as [|seg segs]; [by repeat constructor; simpl; rewrite Hd|].
      apply Forall_cons in IH as [Hseg Hsegs].
      constructor; [|done]. simpl. by rewrite Hd, Hseg.
Qed.

Lemma split_segments_without_sep sep (s : string) :
  Forall (fun seg => PyStr.contains sep seg = false) (PyStr.split sep s).
Proof.
  induction s as [|d s IH]; simpl; [by repeat constructor|].
  destruct (Ascii.eqb d sep) eqn:Hd; [by constructor|].
  destruct (PyStr.split sep s) as [|seg segs];
    [by repeat constructor; simpl; rewrite Hd|].
  apply Forall_cons in IH as [Hseg Hsegs].
  constructor; [|done]. simpl. by rewrite Hd, Hseg.
Qed.

Lemma contains_drop c n (s : string) :
  PyStr.contains c s = false → PyStr.contains c (PyStr.drop n s) = false.
Proof.
  revert s. induction n as [|n IH]; intros [|d s]; simpl; try done.
  intros [_ Hs]%orb_false_iff. by apply IH.
Qed.

Lemma contains_take c n (s : string) :
  PyStr.contains c s = false → PyStr.contains c (PyStr.take n s) = false.
Proof.
  revert s. induction n as [|n IH]; intros [|d s]; simpl; try done.
  intros [Hd Hs]%orb_false_iff. by rewrite Hd, (IH _ Hs).
Qed.

(** Nothing of [s] after the last occurrence of [c] holds [c]. *)
Lemma contains_after_rfind c (s : string) :
  PyStr.contains c (PyStr.drop (Z.to_nat (PyStr.rfind c s + 1)) s) = false.
Proof.
  induction s as [|d s IH]; [done|].
  simpl PyStr.rfind.
  destruct (0 <=? PyStr.rfind c s)%Z eqn:E.
  - apply Z.leb_le in E.
    replace (Z.to_nat (PyStr.rfind c s + 1 + 1))
      with (S (Z.to_nat (PyStr.rfind c s + 1))) by lia.
    exact IH.
  - apply Z.leb_gt in E.
    assert (Habsent : PyStr.contains c s = false).
    { clear IH. induction s as [|e s IHs]; [done|].
      simpl in E. destruct (0 <=? PyStr.rfind c s)%Z eqn:E'.
      - apply Z.leb_le in E'. lia.
      - destruct (Ascii.eqb e c) eqn:He; [lia|].
        simpl. rewrite He. apply IHs. by apply Z.leb_gt. }
    destruct (Ascii.eqb d c) eqn:Hd; simpl.
    + exact Habsent.
    + by rewrite Hd, Habsent.
Qed.

Lemma basename_without_separator (p : string) :
  PyStr.contains "/" (OsPath.basename p) = false.
Proof. apply contains_after_rfind. Qed.

Lemma splitext_stem_without c (p : string) :
  PyStr.contains c p = false → PyStr.contains c (OsPath.splitext p).1 = false.
Proof.
  intros Hp. unfold OsPath.splitext.
  destruct (PyStr.rfind "/" p <? PyStr.rfind "." p)%Z; [|done].
  destruct (PyStr.all_chars "." _); [done|]. simpl. by apply contains_take.
Qed.

(** X3. The table name is defined exactly when the base name without its
    extension holds an underscore; otherwise the extraction raises
    [IndexError].  A table name that is defined holds neither an underscore
    nor a slash. *)
Theorem table_name_defined_iff_underscore (name : string) :
  ((∃ table, table_name_of name = Ok table)
     ↔ PyStr.contains "_" (OsPath.splitext (OsPath.basename name)).1 = true) ∧
  (table_name_of name = Raise IndexError
     ↔ PyStr.contains "_" (OsPath.splitext (OsPath.basename name)).1 = false) ∧
  (∀ table, table_name_of name = Ok table →
            PyStr.contains "_" table = false ∧ PyStr.contains "/" table = false).
Proof.
  unfold table_name_of, PyStr.rsplit.
  set (stem := (OsPath.splitext (OsPath.basename name)).1).
  assert (Hslash : PyStr.contains "/" stem = false)
    by apply splitext_stem_without, basename_without_separator.
  destruct (PyStr.contains "_" stem) eqn:Hus.
  - destruct (split_two_segments _ _ Hus) as (first & second & others & Hsplit).
    rewrite Hsplit. simpl. split_and!.
    + split; [done|]. intros _. by exists second.
    + split; done.
    + intros table [= <-].
      pose proof (split_segments_without_sep "_" stem) as H1.
      pose proof (split_segments_without "_" "/" stem Hslash) as H2.
      rewrite Hsplit in H1, H2.
      apply Forall_cons in H1 as [_ [H1 _]%Forall_cons].
      apply Forall_cons in H2 as [_ [H2 _]%Forall_cons]. done.
  - rewrite (split_no_sep _ _ Hus). simpl. split_and!.
    + split; [by intros [? [=]]|done].
    + split; done.
    + by intros table [=].
Qed.

(** ** One file *)

Section FileProofs.

Context {svc : Services}.


(** X5. When the content of a file is not blank, the transformer returns a
    frame and the warehouse accepts the job, the rows of the frame are
    appended after the rows the table has, no other table changes, and the
    file is moved to the Archive folder. *)
Theorem loaded_file_appends_and_archives
  (w : World) (name table content : string) (df : DataFrame)
  (Hthere : blobs w !! name = Some content)
  (Hnonblank : blank content = false)
  (Hdf : load_json_to_dataframe content = Ok df)
  (Haccept : load_failure (tables w) table (job_config_of df) df = None) :
  ∃ w',
    process_blob_with_error_handling name table w = (Ok tt, w') ∧
    table_rows w' table = table_rows w table ++ rows df ∧
    (∀ other, other ≠ table → table_rows w' other = table_rows w other) ∧
    blobs w' !! ("Archive" +:+ "/" +:+ name) = Some content ∧
    blobs w' !! name = None.
Proof.
  set (w2 := set_tables (<[table := table_rows w table ++ rows df]> (tables w))
               (log_effect (EvLoadJob table (job_config_of df) df)
                  (log_effect (EvDownload name) w))).
  assert (Hproc : process_blob name table w = (Ok tt, w2)).
  { rewrite (process_blob_run _ _ _ _ Hthere). cbv zeta.
    by rewrite Hnonblank, Hdf, Haccept. }
  assert (Hthere2 : blobs w2 !! name = Some content) by done.
  exists (relocated "Archive" name content w2). split_and!.
  - unfold process_blob_with_error_handling. apply try_except_ok.
    rewrite (bind_ok _ _ _ _ _ Hproc).
    unfold bind at 1, blob_exists. rewrite Hthere2.
    rewrite bool_decide_eq_true_2 by (by eexists). simpl.
    by apply move_blob_to_folder_existing.
  - unfold table_rows; simpl. by rewrite lookup_insert_eq.
  - intros other Hne. unfold table_rows; simpl. by rewrite lookup_insert_ne.
  - apply relocated_destination.
  - apply relocated_source.
Qed.

(** X6. A file that is not in the store any more makes the per-file handler
    raise [NotFound]: the move to the Error folder finds nothing to move,
    and the world is left as it was. *)
Theorem vanished_file_raises_not_found
  (w : World) (name table : string)
  (Hgone : blobs w !! name = None) :
  process_blob_with_error_handling name table w = (Raise (NotFound name), w).
Proof.
  assert (Hproc : process_blob name table w = (Raise (NotFound name), w)).
  { unfold process_blob. apply bind_raise. unfold blob_download. by rewrite Hgone. }
  unfold process_blob_with_error_handling.
  rewrite (try_except_raise _ _ w (NotFound name) w) by (by apply bind_raise).
  by rewrite (bind_ok _ _ w tt w) by (by apply move_blob_to_folder_missing).
Qed.

End FileProofs.

(** ** More on the record transformer *)

Lemma dict_keys_update_extends (d other : py_dict) :
  ∃ extra, dict_keys (dict_update d other) = dict_keys d ++ extra.
Proof.
  unfold dict_update. revert d.
  induction other as [|[k v] other IH]; intros d; simpl.
  - exists []. by rewrite app_nil_r.
  - destruct (IH (dict_set d k v)) as [extra Hextra]. rewrite Hextra.
    rewrite dict_keys_set. destruct (dict_mem k d).
    + by exists extra.
    + exists (k :: extra). by rewrite <- app_assoc.
Qed.

Lemma is_Some_dict_get k (d : py_dict) : k ∈ dict_keys d → is_Some (dict_get k d).
Proof.
  intros Hk%dict_mem_keys. unfold dict_mem in Hk.
  destruct (dict_get k d); [by eexists|done].
Qed.

Lemma event_shaped_update ct ts (items : py_dict) :
  event_shaped (dict_update [("change_type", ct); ("source_timestamp", ts)] items).
Proof.
  destruct (dict_keys_update_extends
              [("change_type", ct); ("source_timestamp", ts)] items)
    as [extra Hkeys].
  simpl in Hkeys. split_and!.
  - by exists extra.
  - apply dict_update_keys_NoDup. simpl.
    apply NoDup_cons. split; [|apply NoDup_singleton].
    by intros ?%list_elem_of_singleton.
  - apply is_Some_dict_get. rewrite Hkeys. by left.
  - apply is_Some_dict_get. rewrite Hkeys. right. by left.
Qed.

Section TransformerFurther.

Context {svc : Services}.

Lemma line_record_exceptions (line : string) e :
  line_record line = Raise e →
  json_loads line = Raise e ∨ shape_error e.
Proof.
  unfold line_record, shape_error.
  destruct (json_loads line) as [v|e']; [|intros [= <-]; by left].
  intros Hraise. right. revert Hraise.
  destruct v as [| | | | s|items|members]; simpl;
    try (intros [= <-]; by left).
  - destruct (PyStr.substring_of "payload" s); simpl; [|done].
    intros [= <-]. by left.
  - destruct (existsb (json_is_str "payload") items); simpl; [|done].
    intros [= <-]. by left.
  - unfold dict_mem.
    destruct (dict_get "payload" (dict_of_pairs members)) as [payload|]; [|done].
    simpl.
    destruct (dict_get "source_metadata" (dict_of_pairs members))
      as [source_metadata|]; simpl; [|intros [= <-]; tauto].
    destruct source_metadata as [| | | | | |sm]; simpl;
      try (intros [= <-]; tauto).
    destruct (dict_get "change_type" (dict_of_pairs sm)); simpl;
      [|intros [= <-]; tauto].
    destruct (dict_get "source_timestamp" (dict_of_pairs members)); simpl;
      [|intros [= <-]; tauto].
    destruct payload; simpl; try done; intros [= <-]; tauto.
Qed.

Lemma line_record_event_shaped (line : string) (record : py_dict) :
  line_record line = Ok (Some record) → event_shaped record.
Proof.
  unfold line_record.
  destruct (json_loads line) as [v|]; [|done].
  destruct v as [| | | | s|items|members]; simpl; try done.
  - by destruct (PyStr.substring_of "payload" s).
  - by destruct (existsb (json_is_str "payload") items).
  - destruct (dict_mem "payload" (dict_of_pairs members)); simpl; [|done].
    destruct (dict_get "source_metadata" (dict_of_pairs members))
      as [[| | | | | |sm]|]; simpl; try done.
    destruct (dict_get "change_type" (dict_of_pairs sm)); simpl; [|done].
    destruct (dict_get "source_timestamp" (dict_of_pairs members)); simpl; [|done].
    destruct (dict_get "payload" (dict_of_pairs members))
      as [[| | | | | |payload]|]; simpl; try done.
    intros [= <-]. apply event_shaped_update.
Qed.

Lemma transform_line_outcomes (records : list py_dict) (line : string) :
  match transform_line records line with
  | Ok records' =>
      records' = records ∨ ∃ record, records' = records ++ [record] ∧ event_shaped record
  | Raise e =>
      e ≠ JSONDecodeError ∧
      ((blank line = false ∧ json_loads line = Raise e) ∨ shape_error e)
  end.
Proof.
  unfold transform_line, blank.
  destruct (PyStr.truthy (PyStr.strip line)); [|by left].
  destruct (line_record line) as [[record|]|e] eqn:Hline.
  - right. exists record. split; [done|].
    exact (line_record_event_shaped _ _ Hline).
  - by left.
  - destruct (line_record_exceptions _ _ Hline) as [Hloads|Hshape].
    + destruct e; try (split; [done|by left]). by left.
    + destruct e; try (split; [done|by right]). by left.
Qed.

Lemma transform_lines_outcomes (lines : list string) (records : list py_dict) :
  Forall event_shaped records →
  match transform_lines lines records with
  | Ok records' => Forall event_shaped records'
  | Raise e =>
      e ≠ JSONDecodeError ∧
      ((∃ line, line ∈ lines ∧ blank line = false ∧ json_loads line = Raise e)
       ∨ shape_error e)
  end.
Proof.
  revert records. induction lines as [|line lines IH]; intros records Hall; simpl.
  - done.
  - pose proof (transform_line_outcomes records line) as Hline.
    destruct (transform_line records line) as [records'|e]; simpl.
    + assert (Hall' : Forall event_shaped records').
      { destruct Hline as [->|(record & -> & Hshape)]; [done|].
        apply Forall_app. split; [done|]. by constructor. }
      specialize (IH records' Hall').
      destruct (transform_lines lines records') as [records''|e]; [done|].
      destruct IH as [Hne [(line' & Hin & Hb & Hl)|Hshape]].
      * split; [done|]. left. exists line'. split; [by right|done].
      * split; [done|by right].
    + destruct Hline as [Hne [[Hb Hl]|Hshape]].
      * split; [done|]. left. exists line. split; [by left|done].
      * split; [done|by right].
Qed.

(** X7. [JSONDecodeError] never leaves the transformer.  An exception that
    leaves it is one that [json.loads] raised on a line that is not blank
    (as [RecursionError] or [ValueError]), or it is [TypeError], or
    [KeyError] for [source_metadata], [change_type] or
    [source_timestamp]. *)
Theorem transformer_exceptions (content : string) (e : exn)
  (Hraise : load_json_to_dataframe content = Raise e) :
  e ≠ JSONDecodeError ∧
  ((∃ line, line ∈ PyStr.splitlines content ∧ blank line = false
            ∧ json_loads line = Raise e)
   ∨ e = TypeError ∨ e = KeyError "source_metadata"
   ∨ e = KeyError "change_type" ∨ e = KeyError "source_timestamp").
Proof.
  unfold load_json_to_dataframe in Hraise.
  pose proof (transform_lines_outcomes (PyStr.splitlines content) []
                (Forall_nil_2 _)) as Hout.
  destruct (transform_lines (PyStr.splitlines content) []) as [records|e']; [done|].
  simpl in Hraise. injection Hraise as ->. exact Hout.
Qed.

(** X8. In every frame the transformer returns, each row starts with the
    keys [change_type] and [source_timestamp], binds both, and holds no key
    twice. *)
Theorem rows_are_event_shaped (content : string) (df : DataFrame)
  (Hdf : load_json_to_dataframe content = Ok df) :
  Forall (fun r =>
            (∃ others, dict_keys r = "change_type" :: "source_timestamp" :: others) ∧
            NoDup (dict_keys r) ∧
            is_Some (dict_get "change_type" r) ∧
            is_Some (dict_get "source_timestamp" r))
         (rows df).
Proof.
  unfold load_json_to_dataframe in Hdf.
  pose proof (transform_lines_outcomes (PyStr.splitlines content) []
                (Forall_nil_2 _)) as Hout.
  destruct (transform_lines (PyStr.splitlines content) []) as [records|e']; [|done].
  simpl in Hdf. injection Hdf as <-. by rewrite rows_frame_of_records.
Qed.

Lemma transform_line_silently_skipped (records : list py_dict) (line : string) :
  silently_skipped line = true → transform_line records line = Ok records.
Proof.
  unfold silently_skipped, blank, transform_line, line_record.
  destruct (PyStr.truthy (PyStr.strip line)); simpl; [|done].
  destruct (json_loads line) as [v|[]]; simpl; try done.
  by destruct (py_in "payload" v) as [[]|].
Qed.

(** X9. A line that is blank, on which [json.loads] raises
    [JSONDecodeError], or that it decodes to a dict, list or
    str in which ["payload"] does not occur leaves no trace: the content is
    transformed as the content without that line is. *)
Theorem skipped_line_changes_nothing
  (content content' : string) (before after : list string) (line : string)
  (Hsplit : PyStr.splitlines content = before ++ line :: after)
  (Hsplit' : PyStr.splitlines content' = before ++ after)
  (Hskip : silently_skipped line = true) :
  load_json_to_dataframe content = load_json_to_dataframe content'.
Proof.
  unfold load_json_to_dataframe.
  rewrite Hsplit, Hsplit', !transform_lines_app.
  destruct (transform_lines before []) as [records|e]; [|done]. simpl.
  by rewrite (transform_line_silently_skipped _ _ Hskip).
Qed.

(** X10. A line that is not blank and decodes to a number, a boolean or
    [null] makes the transformer raise [TypeError]: the membership test
    ['payload' in json_obj] fails on such a value and the error is not
    caught, so the file yields no frame. *)
Theorem scalar_line_raises_type_error
  (content : string) (before after : list string) (line : string)
  (v : json) (records : list py_dict)
  (Hsplit : PyStr.splitlines content = before ++ line :: after)
  (Hbefore : transform_lines before [] = Ok records)
  (Hblank : blank line = false)
  (Hloads : json_loads line = Ok v)
  (Hscalar : scalar v = true) :
  load_json_to_dataframe content = Raise TypeError.
Proof.
  unfold load_json_to_dataframe.
  rewrite Hsplit, transform_lines_app, Hbefore. simpl.
  unfold transform_line, line_record.
  unfold blank in Hblank. apply negb_false_iff in Hblank.
  rewrite Hblank, Hloads. by destruct v.
Qed.

End TransformerFurther.

(** ** The first columns of a frame *)

(** A line the decoder gives up on for its depth or for the size of an
    integer is not a skipped line: [except json.JSONDecodeError] does not
    catch what the decoder raises there, and the file yields no frame. *)
Example line_beyond_the_limits_aborts_the_file :
  skippable (svc := reference_services) (Json.times 1200 "[") = false
  ∧ silently_skipped (svc := reference_services) (Json.times 1200 "[") = false
  ∧ load_json_to_dataframe (svc := reference_services) deeply_nested_content
    = Raise RecursionError
  ∧ event_record (svc := reference_services) huge_integer_event = None
  ∧ skippable (svc := reference_services) huge_integer_event = false
  ∧ load_json_to_dataframe (svc := reference_services)
      (insert_event +:+ LF +:+ huge_integer_event)
    = Raise ValueError.
Proof. split_and!; vm_compute; reflexivity. Qed.

Lemma fold_add_column_fresh (keys cols : list string) :
  NoDup (cols ++ keys) → fold_left add_column keys cols = cols ++ keys.
Proof.
  revert cols. induction keys as [|k keys IH]; intros cols Hnd; simpl.
  - by rewrite app_nil_r.
  - assert (Hfresh : existsb (String.eqb k) cols = false).
    { destruct (existsb (String.eqb k) cols) eqn:E; [|done].
      apply existsb_eqb_elem_of in E. apply NoDup_app in Hnd as (_ & Hdisj & _).
      exfalso. apply (Hdisj k E). by left. }
    unfold add_column at 2. rewrite Hfresh.
    rewrite IH by (by rewrite <- app_assoc). by rewrite <- app_assoc.
Qed.

Lemma fold_add_column_extends (keys cols : list string) :
  ∃ extra, fold_left add_column keys cols = cols ++ extra.
Proof.
  revert cols. induction keys as [|k keys IH]; intros cols; simpl.
  - exists []. by rewrite app_nil_r.
  - destruct (IH (add_column cols k)) as [extra ->]. unfold add_column.
    destruct (existsb (String.eqb k) cols); [by exists extra|].
    exists (k :: extra). by rewrite <- app_assoc.
Qed.

Lemma fold_columns_extends (records : list py_dict) (cols : list string) :
  ∃ extra,
    fold_left (fun cols r => fold_left add_column (dict_keys r) cols) records cols
    = cols ++ extra.
Proof.
  revert cols. induction records as [|r records IH]; intros cols; simpl.
  - exists []. by rewrite app_nil_r.
  - destruct (fold_add_column_extends (dict_keys r) cols) as [e1 ->].
    destruct (IH (cols ++ e1)) as [e2 ->].
    exists (e1 ++ e2). by rewrite app_assoc.
Qed.

Section ColumnsProofs.

Context {svc : Services}.

(** X11. When the transformer returns a frame that has a row, the first two
    columns of the frame, and so the first two fields of the schema handed
    to the load job, are [change_type] and [source_timestamp]. *)
Theorem frame_columns_start_with_metadata (content : string) (df : DataFrame)
  (Hdf : load_json_to_dataframe content = Ok df)
  (Hrows : rows df ≠ []) :
  ∃ others,
    columns df = "change_type" :: "source_timestamp" :: others ∧
    schema (job_config_of df)
    = mkSchemaField "change_type" "STRING"
      :: mkSchemaField "source_timestamp" "STRING"
      :: map (fun col => mkSchemaField col "STRING") others.
Proof.
  pose proof (transform_lines_outcomes (PyStr.splitlines content) []
                (Forall_nil_2 _)) as Hout.
  unfold load_json_to_dataframe in Hdf.
  destruct (transform_lines (PyStr.splitlines content) []) as [records|e']; [|done].
  simpl in Hdf. injection Hdf as <-.
  rewrite rows_frame_of_records in Hrows.
  destruct records as [|r records]; [done|].
  apply Forall_cons in Hout as [((keys & Hkeys) & Hnd & _) _].
  assert (Hcols : ∃ others,
            columns (frame_of_records (r :: records))
            = "change_type" :: "source_timestamp" :: others).
  { change (columns (frame_of_records (r :: records)))
      with (fold_left (fun cols r => fold_left add_column (dict_keys r) cols)
                      records (fold_left add_column (dict_keys r) [])).
    rewrite (fold_add_column_fresh (dict_keys r) []) by done.
    destruct (fold_columns_extends records ([] ++ dict_keys r)) as [extra ->].
    rewrite Hkeys. simpl. by eexists. }
  destruct Hcols as [others Hcols]. exists others. split; [done|].
  change (schema (job_config_of (frame_of_records (r :: records))))
    with (map (fun col => mkSchemaField col "STRING")
              (columns (frame_of_records (r :: records)))).
  by rewrite Hcols.
Qed.

End ColumnsProofs.

(** ** What a run keeps *)

Lemma preserves_ret {A} (I : World → Prop) (a : A) : preserves I (ret a).
Proof. by intros w. Qed.

Lemma preserves_raise {A} (I : World → Prop) e : preserves I (raise (A := A) e).
Proof. by intros w. Qed.

Lemma preserves_lift {A} (I : World → Prop) (o : outcome A) : preserves I (lift o).
Proof. by intros w. Qed.

Lemma preserves_bind {A B} (I : World → Prop) (m : M A) (k : A → M B) :
  preserves I m → (∀ a, preserves I (k a)) → preserves I (bind m k).
Proof.
  intros Hm Hk w Hw. unfold bind. specialize (Hm w Hw).
  destruct (m w) as [[a|e] w']; simpl in *; [by apply Hk|done].
Qed.

Lemma preserves_try_except {A} (I : World → Prop) (m : M A) (h : exn → M A) :
  preserves I m → (∀ e, preserves I (h e)) → preserves I (try_except m h).
Proof.
  intros Hm Hh w Hw. unfold try_except. specialize (Hm w Hw).
  destruct (m w) as [[a|e] w']; simpl in *; [done|by apply Hh].
Qed.

Lemma preserves_blob_exists (I : World → Prop) name : preserves I (blob_exists name).
Proof. by intros w. Qed.

(** *** Properties of the store *)

Lemma store_blob_download P name : preserves (on_store P) (blob_download name).
Proof.
  intros w Hw. unfold blob_download. by destruct (blobs w !! name).
Qed.

Lemma store_blob_upload P name data :
  (∀ m, P m → P (<[name := data]> m)) →
  preserves (on_store P) (blob_upload name data).
Proof. intros HP w Hw. by apply HP. Qed.

Lemma store_blob_delete P name :
  (∀ m, P m → P (delete name m)) → preserves (on_store P) (blob_delete name).
Proof.
  intros HP w Hw. unfold blob_delete.
  destruct (blobs w !! name); [by apply HP|done].
Qed.

Lemma store_move P name folder :
  (∀ m data, P m → P (<[folder +:+ "/" +:+ name := data]> m)) →
  (∀ m, P m → P (delete name m)) →
  preserves (on_store P) (move_blob_to_folder name folder).
Proof.
  intros Hins Hdel. unfold move_blob_to_folder.
  apply preserves_try_except; [|intros; apply preserves_ret].
  apply preserves_bind; [apply store_blob_download|]. intros data.
  apply preserves_bind; [apply store_blob_upload; intros; by apply Hins|].
  intros _. by apply store_blob_delete.
Qed.

Lemma store_create_folders P :
  (∀ m, P m → P (<["Archive/" := ""]> m)) →
  (∀ m, P m → P (<["Error/" := ""]> m)) →
  preserves (on_store P) create_folders.
Proof.
  intros HA HE. unfold create_folders.
  apply preserves_bind; [apply preserves_blob_exists|]. intros archive_exists.
  apply preserves_bind.
  { destruct (negb archive_exists); [by apply store_blob_upload|apply preserves_ret]. }
  intros _. apply preserves_bind; [apply preserves_blob_exists|]. intros error_exists.
  destruct (negb error_exists); [by apply store_blob_upload|apply preserves_ret].
Qed.

Section StoreInvariants.

Context {svc : Services}.

Lemma store_load_table P df table cfg :
  preserves (on_store P) (load_table_from_dataframe df table cfg).
Proof.
  intros w Hw. unfold load_table_from_dataframe.
  by destruct (load_failure (tables w) table cfg df).
Qed.

Lemma store_process_blob P name table :
  moves_keep P name → preserves (on_store P) (process_blob name table).
Proof.
  intros (HE & _ & Hdel). unfold process_blob.
  apply preserves_bind; [apply store_blob_download|]. intros content.
  destruct (negb (PyStr.truthy (PyStr.strip content))).
  - by apply store_move.
  - apply preserves_bind; [apply preserves_lift|]. intros df.
    apply store_load_table.
Qed.

Lemma store_process_blob_with_error_handling P name table :
  moves_keep P name →
  preserves (on_store P) (process_blob_with_error_handling name table).
Proof.
  intros Hkeep. pose proof Hkeep as (HE & HA & Hdel).
  unfold process_blob_with_error_handling. apply preserves_try_except.
  - apply preserves_bind; [by apply store_process_blob|]. intros _.
    apply preserves_bind; [apply preserves_blob_exists|]. intros still_there.
    destruct (negb still_there); [apply preserves_ret|by apply store_move].
  - intros e. apply preserves_bind; [by apply store_move|]. intros _.
    apply preserves_raise.
Qed.

Lemma store_ingest_blob P name :
  (in_outcome_zone name = false → moves_keep P name) →
  preserves (on_store P) (ingest_blob name).
Proof.
  intros Hkeep. unfold ingest_blob. fold (in_outcome_zone name).
  destruct (in_outcome_zone name); [apply preserves_ret|].
  specialize (Hkeep eq_refl). pose proof Hkeep as (HE & _ & Hdel).
  destruct (negb (PyStr.endswith name ".jsonl")); [by apply store_move|].
  apply preserves_bind; [apply preserves_lift|]. intros table.
  by apply store_process_blob_with_error_handling.
Qed.

Lemma store_ingest_loop P names :
  (∀ name, name ∈ names → in_outcome_zone name = false → moves_keep P name) →
  preserves (on_store P) (ingest_loop names).
Proof.
  induction names as [|name names IH]; intros Hkeep; simpl.
  - apply preserves_ret.
  - apply preserves_bind.
    + apply store_ingest_blob. apply Hkeep. by left.
    + intros _. apply IH. intros name' Hin. apply Hkeep. by right.
Qed.

Lemma store_run P (w : World) :
  (∀ m, P m → P (<["Archive/" := ""]> m)) →
  (∀ m, P m → P (<["Error/" := ""]> m)) →
  (∀ name, in_outcome_zone name = false → moves_keep P name) →
  P (blobs w) → P (blobs (ingest_json_to_bigquery w).2).
Proof.
  intros HA HE Hkeep Hw.
  rewrite ingest_json_to_bigquery_run. cbv zeta.
  pose proof (store_create_folders P HA HE w Hw) as H1.
  pose proof (store_ingest_loop P (list_blobs (blobs (create_folders w).2))
                (fun name _ => Hkeep name) (create_folders w).2 H1) as H2.
  unfold on_store in H2.
  by destruct (ingest_loop (list_blobs (blobs (create_folders w).2))
                 (create_folders w).2) as [[[]|e] w'].
Qed.

End StoreInvariants.

Lemma zone_of_error_copy name : in_outcome_zone ("Error" +:+ "/" +:+ name) = true.
Proof. destruct name; vm_compute; reflexivity. Qed.

Lemma zone_of_archive_copy name : in_outcome_zone ("Archive" +:+ "/" +:+ name) = true.
Proof. destruct name; vm_compute; reflexivity. Qed.

Lemma is_Some_insert (m : gmap string string) k k' data :
  is_Some (m !! k) → is_Some (<[k' := data]> m !! k).
Proof.
  intros Hk. destruct (decide (k' = k)) as [->|Hne].
  - rewrite lookup_insert_eq. by eexists.
  - by rewrite lookup_insert_ne.
Qed.

Section RunInvariants.

Context {svc : Services}.

(** X12. A run never deletes a blob under [Error/] or [Archive/]: what was
    there before the run is there after it, whatever the outcome of the
    run (its content may have been replaced by a file moved onto it). *)
Theorem outcome_folders_are_never_emptied (w : World) (k : string)
  (Hzone : in_outcome_zone k = true)
  (Hthere : is_Some (blobs w !! k)) :
  is_Some (blobs (ingest_json_to_bigquery w).2 !! k).
Proof.
  apply (store_run (fun m => is_Some (m !! k))); [..|done].
  - intros m. apply is_Some_insert.
  - intros m. apply is_Some_insert.
  - intros name Hname. split_and!.
    + intros m data. apply is_Some_insert.
    + intros m data. apply is_Some_insert.
    + intros m Hm. rewrite lookup_delete_ne; [done|]. intros ->. congruence.
Qed.

(** X13. A run never creates or rewrites a blob outside [Error/] and
    [Archive/]: after the run such a name is either absent or holds what it
    held before, whatever the outcome of the run. *)
Theorem working_zone_is_only_emptied (w : World) (k : string)
  (Hzone : in_outcome_zone k = false) :
  blobs (ingest_json_to_bigquery w).2 !! k = None
  ∨ blobs (ingest_json_to_bigquery w).2 !! k = blobs w !! k.
Proof.
  apply (store_run (fun m => m !! k = None ∨ m !! k = blobs w !! k)).
  - intros m Hm. rewrite lookup_insert_ne; [done|]. by intros <-.
  - intros m Hm. rewrite lookup_insert_ne; [done|]. by intros <-.
  - intros name Hname. split_and!.
    + intros m data Hm. rewrite lookup_insert_ne; [done|].
      intros <-. by rewrite zone_of_error_copy in Hzone.
    + intros m data Hm. rewrite lookup_insert_ne; [done|].
      intros <-. by rewrite zone_of_archive_copy in Hzone.
    + intros m Hm. destruct (decide (name = k)) as [->|Hne].
      * left. apply lookup_delete_eq.
      * by rewrite lookup_delete_ne.
  - by right.
Qed.

End RunInvariants.

(** *** The load jobs of a run *)

Lemma append_job_logged (w : World) ev :
  append_job ev → Forall append_job (trace w) →
  Forall append_job (trace (log_effect ev w)).
Proof. intros Hev Hw. simpl. apply Forall_app. split; [done|by constructor]. Qed.

Lemma append_job_of_frame table (df : DataFrame) :
  append_job (EvLoadJob table (job_config_of df) df).
Proof.
  simpl. split_and!; [done|done|apply schema_field_names|].
  apply Forall_forall. by intros f (col & -> & _)%list_elem_of_fmap.
Qed.

Lemma jobs_blob_download name :
  preserves (fun w => Forall append_job (trace w)) (blob_download name).
Proof.
  intros w Hw. unfold blob_download.
  destruct (blobs w !! name); [by apply append_job_logged|done].
Qed.

Lemma jobs_blob_upload name data :
  preserves (fun w => Forall append_job (trace w)) (blob_upload name data).
Proof. intros w Hw. unfold blob_upload. simpl. apply Forall_app. by split; [|constructor]. Qed.

Lemma jobs_blob_delete name :
  preserves (fun w => Forall append_job (trace w)) (blob_delete name).
Proof.
  intros w Hw. unfold blob_delete.
  destruct (blobs w !! name); [|done].
  simpl. apply Forall_app. by split; [|constructor].
Qed.

Lemma jobs_move name folder :
  preserves (fun w => Forall append_job (trace w)) (move_blob_to_folder name folder).
Proof.
  unfold move_blob_to_folder.
  apply preserves_try_except; [|intros; apply preserves_ret].
  apply preserves_bind; [apply jobs_blob_download|]. intros data.
  apply preserves_bind; [apply jobs_blob_upload|]. intros _.
  apply jobs_blob_delete.
Qed.

Lemma jobs_create_folders :
  preserves (fun w => Forall append_job (trace w)) create_folders.
Proof.
  unfold create_folders.
  apply preserves_bind; [apply preserves_blob_exists|]. intros archive_exists.
  apply preserves_bind.
  { destruct (negb archive_exists); [apply jobs_blob_upload|apply preserves_ret]. }
  intros _. apply preserves_bind; [apply preserves_blob_exists|]. intros error_exists.
  destruct (negb error_exists); [apply jobs_blob_upload|apply preserves_ret].
Qed.

Section JobInvariant.

Context {svc : Services}.

Lemma jobs_create_or_append_table table df :
  preserves (fun w => Forall append_job (trace w)) (create_or_append_table table df).
Proof.
  intros w Hw. unfold create_or_append_table, load_table_from_dataframe.
  pose proof (append_job_logged w _ (append_job_of_frame table df) Hw) as Hlog.
  by destruct (load_failure (tables w) table (job_config_of df) df).
Qed.

Lemma jobs_process_blob_with_error_handling name table :
  preserves (fun w => Forall append_job (trace w))
            (process_blob_with_error_handling name table).
Proof.
  unfold process_blob_with_error_handling, process_blob.
  apply preserves_try_except.
  - apply preserves_bind.
    + apply preserves_bind; [apply jobs_blob_download|]. intros content.
      destruct (negb (PyStr.truthy (PyStr.strip content))); [apply jobs_move|].
      apply preserves_bind; [apply preserves_lift|]. intros df.
      apply jobs_create_or_append_table.
    + intros _. apply preserves_bind; [apply preserves_blob_exists|].
      intros still_there.
      destruct (negb still_there); [apply preserves_ret|apply jobs_move].
  - intros e. apply preserves_bind; [apply jobs_move|]. intros _.
    apply preserves_raise.
Qed.

Lemma jobs_ingest_loop names :
  preserves (fun w => Forall append_job (trace w)) (ingest_loop names).
Proof.
  induction names as [|name names IH]; simpl; [apply preserves_ret|].
  apply preserves_bind; [|by intros _].
  unfold ingest_blob.
  destruct (_ || _); [apply preserves_ret|].
  destruct (negb _); [apply jobs_move|].
  apply preserves_bind; [apply preserves_lift|]. intros table.
  apply jobs_process_blob_with_error_handling.
Qed.

(** X14. Every load job a run issues appends (WRITE_APPEND) from CSV under
    a schema that has one STRING field for each column of the frame, in the
    order of the columns: when the jobs recorded before the run are of that
    kind, so are all the jobs recorded after it, whatever its outcome. *)
Theorem every_load_job_appends (w : World)
  (Hbefore : Forall append_job (trace w)) :
  Forall append_job (trace (ingest_json_to_bigquery w).2).
Proof.
  rewrite ingest_json_to_bigquery_run. cbv zeta.
  pose proof (jobs_create_folders w Hbefore) as H1.
  pose proof (jobs_ingest_loop (list_blobs (blobs (create_folders w).2))
                (create_folders w).2 H1) as H2.
  by destruct (ingest_loop (list_blobs (blobs (create_folders w).2))
                 (create_folders w).2) as [[[]|e] w'].
Qed.

End JobInvariant.

(** ** Where the files of a successful run end *)








Section Exclusivity.

Context {svc : Services}.















End Exclusivity.


(** ** The further properties at concrete buckets *)


Lemma loaded_file_appends_and_archives_witness :
  ∃ w',
    process_blob_with_error_handling (svc := reference_services)
      "evt_orders.jsonl" "orders" scenario_bucket = (Ok tt, w') ∧
    length (table_rows w' "orders") = 2%nat.
Proof.
  destruct (loaded_file_appends_and_archives (svc := reference_services)
              scenario_bucket "evt_orders.jsonl" "orders"
              (insert_event +:+ LF +:+ LF +:+ delete_event +:+ LF)
              (pd_DataFrame
                 [ [("change_type", JStr "INSERT"); ("source_timestamp", JStr "t1");
                    ("id", JInt 1); ("name", JStr "a")];
                   [("change_type", JStr "DELETE"); ("source_timestamp", JStr "t2");
                    ("id", JInt 1)] ]))
    as (w' & Hrun & Hrows & _).
  - vm_compute. reflexivity.
  - vm_compute. reflexivity.
  - vm_compute. reflexivity.
  - reflexivity.
  - exists w'. split; [done|]. rewrite Hrows. reflexivity.
Defined.

Lemma vanished_file_raises_not_found_witness :
  process_blob_with_error_handling (svc := reference_services)
    "evt_orders.jsonl" "orders" (empty_world ∅)
  = (Raise (NotFound "evt_orders.jsonl"), empty_world ∅).
Proof.
  apply (vanished_file_raises_not_found (svc := reference_services)).
  reflexivity.
Defined.

(** A line of 1200 opening brackets: the decoder raises [RecursionError],
    which leaves the transformer. *)
Lemma transformer_exceptions_witness :
  load_json_to_dataframe (svc := reference_services) deeply_nested_content
    = Raise RecursionError ∧
  ∃ line, line ∈ PyStr.splitlines deeply_nested_content
          ∧ json_loads (Services := reference_services) line = Raise RecursionError.
Proof.
  assert (Hraise : load_json_to_dataframe (svc := reference_services)
                     deeply_nested_content = Raise RecursionError)
    by (vm_compute; reflexivity).
  split; [exact Hraise|].
  destruct (transformer_exceptions (svc := reference_services)
              deeply_nested_content RecursionError Hraise)
    as [_ [(line & Hin & _ & Hloads)|[H|[H|[H|H]]]]]; try discriminate H.
  by exists line.
Defined.

Lemma rows_are_event_shaped_witness :
  Forall (fun r => is_Some (dict_get "change_type" r))
    [ [("change_type", JStr "INSERT"); ("source_timestamp", JStr "t1");
       ("id", JInt 1); ("name", JStr "a")];
      [("change_type", JStr "DELETE"); ("source_timestamp", JStr "t2");
       ("id", JInt 1)] ].
Proof.
  eapply Forall_impl.
  - apply (rows_are_event_shaped (svc := reference_services) noisy_content
             (pd_DataFrame
                [ [("change_type", JStr "INSERT"); ("source_timestamp", JStr "t1");
                   ("id", JInt 1); ("name", JStr "a")];
                  [("change_type", JStr "DELETE"); ("source_timestamp", JStr "t2");
                   ("id", JInt 1)] ])).
    vm_compute. reflexivity.
  - intros r (_ & _ & Hct & _). exact Hct.
Defined.

Lemma skipped_line_changes_nothing_witness :
  load_json_to_dataframe (svc := reference_services) odd_lines_content
  = load_json_to_dataframe (svc := reference_services)
      (insert_event +:+ LF +:+ Json.dq "'hello'" +:+ LF +:+ delete_event).
Proof.
  apply (skipped_line_changes_nothing (svc := reference_services)
           odd_lines_content
           (insert_event +:+ LF +:+ Json.dq "'hello'" +:+ LF +:+ delete_event)
           [insert_event] [Json.dq "'hello'"; delete_event] "[1, 2]").
  - vm_compute. reflexivity.
  - vm_compute. reflexivity.
  - vm_compute. reflexivity.
Defined.

Lemma scalar_line_raises_type_error_witness :
  load_json_to_dataframe (svc := reference_services) number_line_content
  = Raise TypeError.
Proof.
  apply (scalar_line_raises_type_error (svc := reference_services)
           number_line_content [insert_event] [delete_event] "5" (JInt 5)
           [ [("change_type", JStr "INSERT"); ("source_timestamp", JStr "t1");
              ("id", JInt 1); ("name", JStr "a")] ]).
  - vm_compute. reflexivity.
  - vm_compute. reflexivity.
  - vm_compute. reflexivity.
  - vm_compute. reflexivity.
  - reflexivity.
Defined.

Lemma frame_columns_start_with_metadata_witness :
  ∃ others,
    columns (pd_DataFrame
               [ [("change_type", JStr "INSERT"); ("source_timestamp", JStr "t1");
                  ("id", JInt 1); ("name", JStr "a")];
                 [("change_type", JStr "DELETE"); ("source_timestamp", JStr "t2");
                  ("id", JInt 1)] ])
    = "change_type" :: "source_timestamp" :: others.
Proof.
  destruct (frame_columns_start_with_metadata (svc := reference_services)
              noisy_content
              (pd_DataFrame
                 [ [("change_type", JStr "INSERT"); ("source_timestamp", JStr "t1");
                    ("id", JInt 1); ("name", JStr "a")];
                   [("change_type", JStr "DELETE"); ("source_timestamp", JStr "t2");
                    ("id", JInt 1)] ]))
    as (others & Hcols & _).
  - vm_compute. reflexivity.
  - discriminate.
  - by exists others.
Defined.

Lemma outcome_folders_are_never_emptied_witness :
  is_Some (blobs (ingest_json_to_bigquery (svc := reference_services) mixed_files).2
             !! "Archive/evt_old.jsonl").
Proof.
  apply (outcome_folders_are_never_emptied (svc := reference_services)).
  - vm_compute. reflexivity.
  - eexists. vm_compute. reflexivity.
Defined.

Lemma working_zone_is_only_emptied_witness :
  blobs (ingest_json_to_bigquery (svc := failing_services) three_files).2
    !! "c_last.jsonl" = None
  ∨ blobs (ingest_json_to_bigquery (svc := failing_services) three_files).2
      !! "c_last.jsonl" = blobs three_files !! "c_last.jsonl".
Proof.
  apply (working_zone_is_only_emptied (svc := failing_services)).
  vm_compute. reflexivity.
Defined.

Lemma every_load_job_appends_witness :
  Forall append_job
    (trace (ingest_json_to_bigquery (svc := reference_services) scenario_bucket).2).
Proof.
  apply (every_load_job_appends (svc := reference_services)).
  apply Forall_nil_2.
Defined.


